(** * File-type resolution of mc-project-core (src/FileType.ts)

    A shallow embedding of the [FileType] class: the definition record
    [IFileType], the registry state (built-in sequence, plugin collection,
    project configuration), the resolution engine [get] with its template
    expansion [prefixMatchers], the placement guesser [guessFolder] and the
    accessors [getIds], [getId] and [isJsonFile], followed by the laws that
    the specification states about them. *)

From Stdlib Require Import ZArith Ascii String List Bool Lia.
From stdpp Require Import base decidable option list strings.

Local Open Scope string_scope.
Local Open Scope list_scope.

(** ** Data model *)

(** [TPackTypeId] comes from ./PackType, a union of string literals. *)
Definition TPackTypeId : Type := string.

Inductive TCompareOperator : Type := OpGt | OpGe | OpEq | OpLt | OpLe.

(** The tag [type?: 'json' | 'text' | 'nbt']. *)
Inductive TFileKind : Type := KindJson | KindText | KindNbt.

(** A field typed [T | T[]]. *)
Inductive OneOrMany (A : Type) : Type :=
| One (x : A)
| Many (xs : list A).
Arguments One {A} x.
Arguments Many {A} xs.

Record IDetect : Type := mkDetect {
  packType : option (OneOrMany TPackTypeId);
  scope : option (OneOrMany string);
  matcher : option (OneOrMany string);
  fileContent : option (list string);
  fileExtensions : option (list string)
}.

Record IDefinition : Type := mkDefinition {
  directReference : option bool;
  from : string;
  match_ : string
}.

(** [IDefinitions] is an object used as a map from keys to entries. *)
Definition IDefinitions : Type := list (string * OneOrMany IDefinition).

Record IDocumentation : Type := mkDocumentation {
  baseUrl : string;
  supportsQuerying : option bool
}.

Record IMeta : Type := mkMeta {
  commandsUseSlash : option bool;
  language : option string
}.

Record IHighlighterConfiguration : Type := mkHighlighter {
  keywords : option (list string);
  typeIdentifiers : option (list string);
  variables : option (list string);
  highlighterDefinitions : option (list string)
}.

Record IFileType : Type := mkFileType {
  type : option TFileKind;
  id : string;
  icon : option string;
  detect : option IDetect;
  schema : string;
  types : list (string + string * (TCompareOperator * string));
  packSpider : string;
  lightningCache : string;
  definitions : IDefinitions;
  formatOnSaveCapable : bool;
  documentation : option IDocumentation;
  meta : option IMeta;
  highlighterConfiguration : option IHighlighterConfiguration
}.

(** The project configuration is an object handed to the constructor; the
    class only calls its [resolvePackPath] method. *)
Record ProjectConfig : Type := mkProjectConfig {
  resolvePackPath : option TPackTypeId -> string -> string
}.

(** ** JavaScript values and strings *)

(** A string is truthy when it is not empty. *)
Definition truthy_string (s : string) : bool := negb (String.eqb s "").

(** [x] of type [string | string[] | undefined] in a boolean context: an
    array is an object and always truthy, even when empty. *)
Definition truthy_one_or_many (x : option (OneOrMany string)) : bool :=
  match x with
  | None => false
  | Some (One s) => truthy_string s
  | Some (Many _) => true
  end.

(** [Array.isArray(x) ? x : [x!]]. For [undefined] the source builds
    [[undefined]]; that array is only read under [hasScope]/[hasMatcher],
    which are false then, so the model uses the empty list. *)
Definition as_array (x : option (OneOrMany string)) : list string :=
  match x with
  | Some (Many xs) => xs
  | Some (One s) => [s]
  | None => []
  end.

(** [s.startsWith(prefix)] *)
Definition startsWith (s prefix : string) : bool := String.prefix prefix s.

(** [s.endsWith(suffix)] *)
Definition endsWith (s suffix : string) : bool :=
  let n := String.length s in
  let k := String.length suffix in
  (k <=? n)%nat && String.eqb (substring (n - k) k s) suffix.

(** [xs.includes(x)] on an array of strings. *)
Definition includes (xs : list string) (x : string) : bool :=
  existsb (String.eqb x) xs.

(** [s.split(sep)] for a one-character separator: [cur] collects, reversed,
    the characters of the segment being read. *)
Fixpoint split_go (sep : ascii) (s : string) (cur : list ascii) : list string :=
  match s with
  | EmptyString => [string_of_list_ascii (rev cur)]
  | String c rest =>
      if Ascii.eqb c sep
      then string_of_list_ascii (rev cur) :: split_go sep rest []
      else split_go sep rest (c :: cur)
  end.

Definition split (s : string) (sep : ascii) : list string := split_go sep s [].

(** [xs.pop()!] read as a value: the last element. *)
Definition pop (xs : list string) : string := List.last xs "".

(** ** Effects: exceptions and the console *)

Inductive Exn : Type :=
| JsError (message : string)
| JsTypeError
| JsSyntaxError.

Inductive Completion (A : Type) : Type :=
| Normal (v : A)
| Throw (e : Exn).
Arguments Normal {A} v.
Arguments Throw {A} e.

(** A computation yields what it wrote with [console.log] and how it
    completed. *)
Record Eff (A : Type) : Type := mkEff {
  console : list IFileType;
  completion : Completion A
}.
Arguments mkEff {A} console completion.
Arguments console {A} _.
Arguments completion {A} _.

Definition ret {A} (v : A) : Eff A := mkEff [] (Normal v).
Definition throw {A} (e : Exn) : Eff A := mkEff [] (Throw e).
Definition console_log (x : IFileType) : Eff unit := mkEff [x] (Normal tt).
Definition lift {A} (c : Completion A) : Eff A := mkEff [] c.

Definition bind {A B} (m : Eff A) (k : A -> Eff B) : Eff B :=
  match completion m with
  | Normal v => let r := k v in mkEff (console m ++ console r) (completion r)
  | Throw e => mkEff (console m) (Throw e)
  end.

Notation "'let*' x ':=' m 'in' k" := (bind m (fun x => k))
  (at level 10, x name, m at level 100, k at level 200).

(** [try { body } catch { handler }] *)
Definition try_catch {A} (body : Eff A) (handler : Eff A) : Eff A :=
  match completion body with
  | Normal v => body
  | Throw _ => mkEff (console body ++ console handler) (completion handler)
  end.

(** [for (const x of xs) { body }] where the body either falls through to
    the next iteration ([None], also for [continue]) or leaves the enclosing
    function with [return v] ([Some v]). *)
Fixpoint for_of {A B} (xs : list A) (body : A -> Eff (option B)) : Eff (option B) :=
  match xs with
  | [] => ret None
  | x :: rest =>
      let* r := body x in
      match r with
      | Some v => ret (Some v)
      | None => for_of rest body
      end
  end.

(** ** The extension of a path

    [extname] is imported from path-browserify. [posix_extname] follows that
    package's implementation: one backward pass over the characters that
    tracks the first dot from the right inside the last path component. *)

Record ExtnameState : Type := mkExtnameState {
  startDot : Z;
  startPart : Z;
  end_ : Z;
  matchedSlash : bool;
  preDotState : Z
}.

(** One character at index [i], scanning from the end; [rcs] holds the
    characters at indices [i], [i-1], ..., [0]. *)
Fixpoint extname_loop (rcs : list ascii) (i : Z) (st : ExtnameState) : ExtnameState :=
  match rcs with
  | [] => st
  | c :: rest =>
      if Ascii.eqb c "/"%char then
        if negb (matchedSlash st)
        then mkExtnameState (startDot st) (i + 1) (end_ st) (matchedSlash st) (preDotState st)
        else extname_loop rest (i - 1) st
      else
        let st1 :=
          if (end_ st =? -1)%Z
          then mkExtnameState (startDot st) (startPart st) (i + 1) false (preDotState st)
          else st in
        let st2 :=
          if Ascii.eqb c "."%char then
            if (startDot st1 =? -1)%Z
            then mkExtnameState i (startPart st1) (end_ st1) (matchedSlash st1) (preDotState st1)
            else if negb (preDotState st1 =? 1)%Z
            then mkExtnameState (startDot st1) (startPart st1) (end_ st1) (matchedSlash st1) 1
            else st1
          else if negb (startDot st1 =? -1)%Z
          then mkExtnameState (startDot st1) (startPart st1) (end_ st1) (matchedSlash st1) (-1)
          else st1 in
        extname_loop rest (i - 1) st2
  end.

Definition posix_extname (path : string) : string :=
  let st := extname_loop (rev (list_ascii_of_string path))
              (Z.of_nat (String.length path) - 1)
              (mkExtnameState (-1) 0 (-1) true 0) in
  if (startDot st =? -1)%Z || (end_ st =? -1)%Z || (preDotState st =? 0)%Z
     || ((preDotState st =? 1)%Z && (startDot st =? end_ st - 1)%Z
         && (startDot st =? startPart st + 1)%Z)
  then ""
  else substring (Z.to_nat (startDot st)) (Z.to_nat (end_ st - startDot st)) path.

(** The file handle consumed by [guessFolder]: [getFile()] and [text()] are
    promises, which settle with a value or reject. *)
Record File : Type := mkFile {
  text : Completion string
}.

Record FileHandle : Type := mkFileHandle {
  name : string;
  getFile : Completion File
}.

(** ** The class [FileType]

    The instance state. The plugin collection is a JavaScript [Set] of
    object references: membership is by identity, so its elements are the
    heap addresses of the definitions, kept in insertion order without
    repetition. *)

Definition ObjRef : Type := positive.

Record FileType : Type := mkState {
  projectConfig : option ProjectConfig;
  pluginFileTypes : list ObjRef;
  fileTypes : list IFileType
}.

(** *** [Set.prototype] *)

Definition set_has (s : list ObjRef) (x : ObjRef) : bool :=
  bool_decide (x ∈ s).

Definition set_add (s : list ObjRef) (x : ObjRef) : list ObjRef :=
  if set_has s x then s else s ++ [x].

(** [delete] answers whether the element was present. *)
Definition set_delete (s : list ObjRef) (x : ObjRef) : bool * list ObjRef :=
  (set_has s x, filter (fun y => y ≠ x) s).

Definition set_clear (s : list ObjRef) : list ObjRef := [].

(** *** Registry operations *)

Definition setProjectConfig (cfg : ProjectConfig) (this : FileType) : FileType :=
  mkState (Some cfg) (pluginFileTypes this) (fileTypes this).

(** The disposer returned by [addPluginFileType(fileDef)]: a closure over
    [this] and [fileDef], run on the state current at the time of the call. *)
Definition dispose (fileDef : ObjRef) (this : FileType) : bool * FileType :=
  let '(was_member, s) := set_delete (pluginFileTypes this) fileDef in
  (was_member, mkState (projectConfig this) s (fileTypes this)).

Definition addPluginFileType (fileDef : ObjRef) (this : FileType)
  : (FileType -> bool * FileType) * FileType :=
  (dispose fileDef,
   mkState (projectConfig this) (set_add (pluginFileTypes this) fileDef) (fileTypes this)).

Definition getPluginFileTypes (this : FileType) : list ObjRef :=
  pluginFileTypes this.

(** [fileDefs.forEach((fileDef) => this.pluginFileTypes.add(fileDef))] *)
Definition setPluginFileTypes (fileDefs : option (list ObjRef)) (this : FileType) : FileType :=
  let fileDefs := default [] fileDefs in
  mkState (projectConfig this)
          (fold_left set_add fileDefs (set_clear (pluginFileTypes this)))
          (fileTypes this).

(** *** [prefixMatchers] *)

(** The nested [for] loops push onto [prefixed]. *)
Definition prefixMatchers_inner (cfg : ProjectConfig) (packType : TPackTypeId)
    (matchers : list string) (prefixed : list string) : list string :=
  fold_left (fun acc matcher => acc ++ [resolvePackPath cfg (Some packType) matcher])
            matchers prefixed.

Definition prefixMatchers (this : FileType) (packTypes : list TPackTypeId)
    (matchers : list string) : list string :=
  match projectConfig this with
  | None => []
  | Some cfg =>
      if (length packTypes =? 0)%nat
      then map (fun matcher => resolvePackPath cfg None matcher) matchers
      else fold_left (fun acc packType => prefixMatchers_inner cfg packType matchers acc)
                     packTypes []
  end.

(** *** [getIds] *)

Definition getIds (this : FileType) : list string :=
  fold_left (fun ids fileType => ids ++ [id fileType]) (fileTypes this) [].

(** ** Sample registries

    Concrete definitions and states on which the laws below are exercised. *)

(** A configuration whose resolver keeps a category-less template as it is
    and puts the category in front of it otherwise. *)
Definition sample_config : ProjectConfig :=
  mkProjectConfig (fun packType template =>
    match packType with
    | None => template
    | Some category => (category ++ "/" ++ template)%string
    end).

Definition sample_definition (i : string) (d : option IDetect) : IFileType :=
  mkFileType None i None d "" [] "" "" [] false None None None.

(** [{id:'a', detect:{scope:'packs/behavior', fileExtensions:['.json']}}] *)
Definition def_a : IFileType :=
  sample_definition "a"
    (Some (mkDetect None (Some (One "packs/behavior")) None None (Some [".json"]))).

(** [{id:'b', detect:{scope:'packs/resource'}}] *)
Definition def_b : IFileType :=
  sample_definition "b"
    (Some (mkDetect None (Some (One "packs/resource")) None None None)).

(** [{id:'c', detect:{scope:['packs']}}] *)
Definition def_c : IFileType :=
  sample_definition "c"
    (Some (mkDetect None (Some (Many ["packs"])) None None None)).

(** [{id:'bad'}]: neither scope nor matcher. *)
Definition def_bad : IFileType := sample_definition "bad" None.

(** [{id:'loot', type:'json',
      detect:{scope:'packs/behavior/loot_tables', fileContent:['pools']}}] *)
Definition def_loot : IFileType :=
  mkFileType (Some KindJson) "loot" None
    (Some (mkDetect None (Some (One "packs/behavior/loot_tables")) None
                    (Some ["pools"]) None))
    "" [] "" "" [] false None None None.

(** [{id:'plain', detect:{scope:'docs'}, meta:{language:'plaintext'}}] *)
Definition def_plain : IFileType :=
  mkFileType None "plain" None
    (Some (mkDetect None (Some (One "docs")) None None None))
    "" [] "" "" [] false None (Some (mkMeta None (Some "plaintext"))) None.

(** [{id:'hollow', detect:{scope:[], matcher:'manifest.json'}}] *)
Definition def_hollow : IFileType :=
  sample_definition "hollow"
    (Some (mkDetect None (Some (Many [])) (Some (One "manifest.json")) None None)).

(** [{id:'hollow_json', detect:{scope:[], fileExtensions:['.json']}}] *)
Definition def_hollow_json : IFileType :=
  sample_definition "hollow_json"
    (Some (mkDetect None (Some (Many [])) None None (Some [".json"]))).

(** [{id:'m', detect:{matcher:'manifest.json'}}] *)
Definition def_m : IFileType :=
  sample_definition "m"
    (Some (mkDetect None None (Some (One "manifest.json")) None None)).

(** [{id:'blank', detect:{scope:'docs'}, meta:{language:''}}] *)
Definition def_blank : IFileType :=
  mkFileType None "blank" None
    (Some (mkDetect None (Some (One "docs")) None None None))
    "" [] "" "" [] false None (Some (mkMeta None (Some ""))) None.

(** [{id:'hollow_content', detect:{scope:[], fileContent:[]}}] *)
Definition def_hollow_content : IFileType :=
  sample_definition "hollow_content"
    (Some (mkDetect None (Some (Many [])) None (Some []) None)).

Definition sample_state (defs : list IFileType) : FileType :=
  mkState (Some sample_config) [] defs.

(** A glob matcher for patterns without metacharacters: such a pattern
    matches exactly itself. *)
Definition literal_isMatch (path : string) (patterns : list string) : bool :=
  existsb (String.eqb path) patterns.

(** A stand-in for the JSON5 parser on the sample inputs: a text that opens
    an object parses (to itself), anything else is malformed. *)
Definition sample_parse (content : string) : option string :=
  if startsWith content "{" then Some content else None.

Definition sample_handle (fileName content : string) : FileHandle :=
  mkFileHandle fileName (Normal (mkFile (Normal content))).

(** Closed statements about the samples are settled by evaluation. *)
Ltac evaluate := cbv zeta; vm_compute; reflexivity.
Ltac evaluate_ne := cbv zeta; let H := fresh in intros H; vm_compute in H; discriminate H.

Section Collaborators.

(** [extname] of path-browserify and [isMatch] of micromatch. *)
Variable extname : string -> string.
Variable isMatch : string -> list string -> bool.

(** [parse] of json5 raises on malformed input ([None]). *)
Variable JSON : Type.
Variable parse : string -> option JSON.

(** *** [get] *)

Definition invalid_definition_message : string :=
  "Invalid file definition, no " ++ String "034"%char "detect"
    ++ String "034"%char " properties".

(** [filePath] in a boolean context. *)
Definition truthy_path (filePath : option string) : bool :=
  match filePath with
  | Some p => truthy_string p
  | None => false
  end.

Definition packTypes_of (fileType : IFileType) : list TPackTypeId :=
  match detect fileType ≫= packType with
  | None => []
  | Some (Many xs) => xs
  | Some (One x) => [x]
  end.

Definition hasScope (fileType : IFileType) : bool :=
  truthy_one_or_many (detect fileType ≫= scope).

Definition hasMatcher (fileType : IFileType) : bool :=
  truthy_one_or_many (detect fileType ≫= matcher).

(** The test [fileExtensions && extension && !fileExtensions.includes(extension)]. *)
Definition extension_rejected (fileType : IFileType) (extension : option string) : bool :=
  match detect fileType ≫= fileExtensions, extension with
  | Some exts, Some ext => truthy_string ext && negb (includes exts ext)
  | _, _ => false
  end.

(** The part of the loop body that follows [else if (!filePath) continue],
    for a truthy [filePath]. *)
Definition get_detect (this : FileType) (filePath : string) (extension : option string)
    (fileType : IFileType) : Eff (option IFileType) :=
  let packTypes := packTypes_of fileType in
  let scope := as_array (detect fileType ≫= scope) in
  let matcher := as_array (detect fileType ≫= matcher) in
  if extension_rejected fileType extension then ret None
  else if hasScope fileType then
    if existsb (fun scope => startsWith filePath scope)
               (prefixMatchers this packTypes scope)
    then ret (Some fileType)
    else ret None
  else if hasMatcher fileType then
    if isMatch filePath (prefixMatchers this packTypes matcher)
    then ret (Some fileType)
    else ret None
  else
    let* u := console_log fileType in
    throw (JsError invalid_definition_message).

Definition get_body (this : FileType) (filePath searchFileType : option string)
    (extension : option string) (fileType : IFileType) : Eff (option IFileType) :=
  if match searchFileType with
     | Some wanted => String.eqb wanted (id fileType)
     | None => false
     end
  then ret (Some fileType)
  else match filePath with
       | Some p => if truthy_string p then get_detect this p extension fileType
                   else ret None
       | None => ret None
       end.

(** [const extension = filePath ? extname(filePath) : null] *)
Definition extension_of (filePath : option string) : option string :=
  match filePath with
  | Some p => if truthy_string p then Some (extname p) else None
  | None => None
  end.

(** [get(filePath?, searchFileType?)]; [None] is [undefined]. *)
Definition get (this : FileType) (filePath searchFileType : option string)
  : Eff (option IFileType) :=
  let extension := extension_of filePath in
  for_of (fileTypes this) (get_body this filePath searchFileType extension).

(** *** [getId] and [isJsonFile] *)

(** [this.get(filePath)?.id ?? 'unknown'] *)
Definition getId (this : FileType) (filePath : string) : Eff string :=
  let* found := get this (Some filePath) None in
  ret (match found with
       | Some fileType => id fileType
       | None => "unknown"
       end).

Definition isJsonFile (this : FileType) (filePath : string) : Eff bool :=
  let* found := get this (Some filePath) None in
  let language := (found ≫= meta) ≫= language in
  ret (match language with
       | Some l => if truthy_string l then String.eqb l "json"
                   else endsWith filePath ".json"
       | None => endsWith filePath ".json"
       end).

(** *** [guessFolder] *)

(** The helper [getStartPath]: on an empty array [scope[0]] is [undefined]
    and the call of [endsWith] on it raises a [TypeError]. *)
Definition getStartPath (scope : OneOrMany string) : Eff string :=
  let* startPath :=
    match scope with
    | Many (first :: _) => ret first
    | Many [] => throw JsTypeError
    | One s => ret s
    end in
  ret (if negb (endsWith startPath "/") then (startPath ++ "/")%string else startPath).

(** The default [{}] of [{ detect = {} }] and of [detect ?? {}]. *)
Definition empty_detect : IDetect := mkDetect None None None None None.

(** Body of the loop of phase 1. *)
Definition guess_by_extension (extension : string) (fileType : IFileType)
  : Eff (option string) :=
  let detect := default empty_detect (detect fileType) in
  match scope detect with
  | None => ret None
  | Some sc =>
      if negb (truthy_one_or_many (Some sc)) then ret None
      else if match fileExtensions detect with
              | Some exts => includes exts extension
              | None => false
              end
      then let* startPath := getStartPath sc in ret (Some startPath)
      else ret None
  end.

(** Body of the loop of phase 2; the test on [json] is commented out in the
    source, so the parsed value is not read. *)
Definition guess_by_content (json : JSON) (fileType : IFileType)
  : Eff (option string) :=
  if match type fileType with
     | Some KindJson => false
     | Some _ => true
     | None => false
     end
  then ret None
  else
    let detect := default empty_detect (detect fileType) in
    match scope detect, fileContent detect with
    | Some sc, Some _ =>
        if negb (truthy_one_or_many (Some sc)) then ret None
        else let* startPath := getStartPath sc in ret (Some startPath)
    | _, _ => ret None
    end.

(** [null] is [None]. *)
Definition guessFolder (this : FileType) (fileHandle : FileHandle)
  : Eff (option string) :=
  let extension := ("." ++ pop (split (name fileHandle) "."%char))%string in
  let* guess := for_of (fileTypes this) (guess_by_extension extension) in
  match guess with
  | Some startPath => ret (Some startPath)
  | None =>
      if negb (endsWith (name fileHandle) ".json") then ret None
      else
        let* file := lift (getFile fileHandle) in
        let* parsed :=
          try_catch
            (let* content := lift (text file) in
             match parse content with
             | Some json => ret (Some json)
             | None => throw JsSyntaxError
             end)
            (ret None) in
        match parsed with
        | None => ret None
        | Some json => for_of (fileTypes this) (guess_by_content json)
        end
  end.

(** ** Vocabulary of the laws *)

(** A definition structurally matches a path when the scan, arriving at it
    with that path and no requested identifier, returns it: it passes the
    extension filter and then matches by scope prefix or, without a scope, by
    matcher glob. *)
Definition structurally_matches (this : FileType) (filePath : string)
    (fileType : IFileType) : bool :=
  truthy_string filePath
  && negb (extension_rejected fileType (Some (extname filePath)))
  && (if hasScope fileType
      then existsb (fun scope => startsWith filePath scope)
             (prefixMatchers this (packTypes_of fileType)
                (as_array (detect fileType ≫= scope)))
      else hasMatcher fileType
           && isMatch filePath
                (prefixMatchers this (packTypes_of fileType)
                   (as_array (detect fileType ≫= matcher)))).

(** The scan, arriving at the definition with that path, aborts: the
    definition passes the extension filter and has neither scope nor
    matcher. *)
Definition aborts_scan (filePath : string) (fileType : IFileType) : bool :=
  truthy_string filePath
  && negb (extension_rejected fileType (Some (extname filePath)))
  && negb (hasScope fileType) && negb (hasMatcher fileType).

(** One iteration of the loop of [get]. *)
Definition get_step (this : FileType) (filePath searchFileType : option string)
    (fileType : IFileType) : Eff (option IFileType) :=
  get_body this filePath searchFileType (extension_of filePath) fileType.

(** The error raised for an invalid definition, which is logged first. *)
Definition invalid_definition (fileType : IFileType) : Eff (option IFileType) :=
  mkEff [fileType] (Throw (JsError invalid_definition_message)).

(** What the callers of the engine observe for one query. *)
Definition observations (this : FileType) (filePath searchFileType : option string)
    (fileHandle : FileHandle)
  : Eff (option IFileType) * list string * Eff (option string) :=
  (get this filePath searchFileType, getIds this, guessFolder this fileHandle).

(** A candidate of phase 2 of [guessFolder]: the type is unspecified or
    [json], and both [scope] and [fileContent] are declared (truthy). *)
Definition content_candidate (fileType : IFileType) : bool :=
  match type fileType with
  | Some KindJson | None => true
  | Some _ => false
  end
  && truthy_one_or_many (detect fileType ≫= scope)
  && bool_decide (is_Some (detect fileType ≫= fileContent)).

(** The first entry of a declared scope, if there is one. *)
Definition first_scope_entry (fileType : IFileType) : option string :=
  match detect fileType ≫= scope with
  | Some (One s) => Some s
  | Some (Many (s :: _)) => Some s
  | Some (Many []) => None
  | None => None
  end.

(** A folder path ends with the separator. *)
Definition normalized (folder : string) : string :=
  if endsWith folder "/" then folder else (folder ++ "/")%string.

(** The registry with further definitions behind the built-in sequence. *)
Definition append_definitions (this : FileType) (extra : list IFileType) : FileType :=
  mkState (projectConfig this) (pluginFileTypes this) (fileTypes this ++ extra).

(** The extension that phase 1 of [guessFolder] derives from a file name. *)
Definition file_extension (fileName : string) : string :=
  ("." ++ pop (split fileName "."%char))%string.

(** A string without a dot. *)
Fixpoint no_dot (s : string) : bool :=
  match s with
  | EmptyString => true
  | String c rest => negb (Ascii.eqb c "."%char) && no_dot rest
  end.

(** A candidate of phase 1 of [guessFolder]: the scope is declared (truthy)
    and the extension is among the declared [fileExtensions]. *)
Definition extension_candidate (extension : string) (fileType : IFileType) : bool :=
  truthy_one_or_many (detect fileType ≫= scope)
  && match detect fileType ≫= fileExtensions with
     | Some exts => includes exts extension
     | None => false
     end.

(** The scope is not an empty array. *)
Definition well_scoped (fileType : IFileType) : bool :=
  match detect fileType ≫= scope with
  | Some (Many []) => false
  | _ => true
  end.

(** ** Loops and effects *)

Lemma eff_eta {A} (m : Eff A) : mkEff (console m) (completion m) = m.
Proof. by destruct m. Qed.

Lemma bind_ret {A B} (v : A) (k : A -> Eff B) : bind (ret v) k = k v.
Proof. unfold bind; simpl. apply eff_eta. Qed.

Lemma bind_throw {A B} (log : list IFileType) (e : Exn) (k : A -> Eff B) :
  bind (mkEff log (Throw e)) k = mkEff log (Throw e).
Proof. reflexivity. Qed.

Lemma lift_normal {A} (v : A) : lift (Normal v) = ret v.
Proof. reflexivity. Qed.

Lemma try_catch_ret {A} (v : A) (handler : Eff A) : try_catch (ret v) handler = ret v.
Proof. reflexivity. Qed.

Lemma try_catch_throw {A} (e : Exn) (handler : Eff A) :
  try_catch (throw e) handler = handler.
Proof. unfold try_catch. simpl. apply eff_eta. Qed.

Lemma for_of_continue {A B} (x : A) (rest : list A) (body : A -> Eff (option B)) :
  body x = ret None -> for_of (x :: rest) body = for_of rest body.
Proof. intros Hx. simpl. rewrite Hx. by rewrite bind_ret. Qed.

Lemma for_of_return {A B} (x : A) (rest : list A) (body : A -> Eff (option B)) v :
  body x = ret (Some v) -> for_of (x :: rest) body = ret (Some v).
Proof. intros Hx. simpl. rewrite Hx. by rewrite bind_ret. Qed.

Lemma for_of_throw {A B} (x : A) (rest : list A) (body : A -> Eff (option B)) log e :
  body x = mkEff log (Throw e) -> for_of (x :: rest) body = mkEff log (Throw e).
Proof. intros Hx. simpl. rewrite Hx. by rewrite bind_throw. Qed.

Lemma for_of_skip_prefix {A B} (pre rest : list A) (body : A -> Eff (option B)) :
  Forall (fun x => body x = ret None) pre ->
  for_of (pre ++ rest) body = for_of rest body.
Proof.
  induction 1 as [|x pre Hx _ IH]; [reflexivity|].
  rewrite <- app_comm_cons, for_of_continue; assumption.
Qed.

Lemma for_of_all_continue {A B} (l : list A) (body : A -> Eff (option B)) :
  Forall (fun x => body x = ret None) l -> for_of l body = ret None.
Proof.
  intros Hl. rewrite <- (app_nil_r l). by rewrite for_of_skip_prefix.
Qed.

Lemma for_of_return_inv {A B} (l : list A) (body : A -> Eff (option B)) v :
  completion (for_of l body) = Normal (Some v) ->
  exists x, In x l /\ completion (body x) = Normal (Some v).
Proof.
  induction l as [|x l IH]; simpl; [discriminate|].
  unfold bind. destruct (completion (body x)) as [[w|]|e] eqn:Hx; simpl.
  - intros [= ->]. exists x. auto.
  - intros Hl. destruct (IH Hl) as (y & Hy & Hby). exists y. auto.
  - discriminate.
Qed.

(** ** One iteration of [get] *)

Lemma includes_In (xs : list string) (x : string) : includes xs x = true <-> In x xs.
Proof.
  unfold includes. rewrite existsb_exists. split.
  - intros (y & Hy & Heq). apply String.eqb_eq in Heq. by subst.
  - intros Hx. exists x. split; [assumption | apply String.eqb_refl].
Qed.

Lemma truthy_string_nonempty (s : string) : truthy_string s = true <-> s <> "".
Proof.
  unfold truthy_string. rewrite negb_true_iff. split.
  - intros Hs ->. by rewrite String.eqb_refl in Hs.
  - intros Hs. by apply String.eqb_neq.
Qed.

(** With a path and no requested identifier the iteration returns the
    definition, aborts or goes on, as the two predicates say. *)
Lemma get_step_path (this : FileType) (p : string) (d : IFileType) :
  get_step this (Some p) None d =
    if structurally_matches this p d then ret (Some d)
    else if aborts_scan p d then invalid_definition d
    else ret None.
Proof.
  unfold get_step, get_body, extension_of, structurally_matches, aborts_scan,
    get_detect, invalid_definition.
  destruct (truthy_string p); simpl; [|reflexivity].
  destruct (extension_rejected d (Some (extname p))); simpl; [reflexivity|].
  destruct (hasScope d); simpl.
  - by destruct (existsb _ _).
  - destruct (hasMatcher d); simpl; [|reflexivity].
    by destruct (isMatch _ _).
Qed.

Lemma get_step_found (this : FileType) (filePath : option string) (sid : string)
    (d : IFileType) :
  id d = sid -> get_step this filePath (Some sid) d = ret (Some d).
Proof.
  intros <-. unfold get_step, get_body. by rewrite String.eqb_refl.
Qed.

Lemma get_step_other_id (this : FileType) (filePath : option string) (sid : string)
    (d : IFileType) :
  id d <> sid -> get_step this filePath (Some sid) d = get_step this filePath None d.
Proof.
  intros Hne. unfold get_step, get_body.
  destruct (String.eqb_spec sid (id d)) as [->|_]; [by destruct Hne | reflexivity].
Qed.

Lemma get_step_no_path (this : FileType) (filePath : option string) (d : IFileType) :
  truthy_path filePath = false -> get_step this filePath None d = ret None.
Proof.
  unfold get_step, get_body, truthy_path.
  destruct filePath as [p|]; [|reflexivity]. by intros ->.
Qed.

Lemma get_scan (this : FileType) (filePath searchFileType : option string) :
  get this filePath searchFileType
  = for_of (fileTypes this) (get_step this filePath searchFileType).
Proof. reflexivity. Qed.

Lemma get_step_passes (this : FileType) (p : string) (d : IFileType) :
  structurally_matches this p d = false -> aborts_scan p d = false ->
  get_step this (Some p) None d = ret None.
Proof. intros Hm Ha. by rewrite get_step_path, Hm, Ha. Qed.

(** ** Laws of the resolution engine *)

(** The scan over a sequence that starts with [l1 ++ [d1]], where [d1]
    matches, ends inside that prefix: at its first definition that matches
    or aborts. *)
Lemma scan_decided_in_prefix (this : FileType) (p : string)
    (l1 : list IFileType) (d1 : IFileType) (rest : list IFileType) :
  structurally_matches this p d1 = true ->
  exists pre d post,
    l1 ++ [d1] = pre ++ d :: post
    /\ Forall (fun x => structurally_matches this p x = false
                         /\ aborts_scan p x = false) pre
    /\ ((structurally_matches this p d = true
          /\ for_of (l1 ++ d1 :: rest) (get_step this (Some p) None) = ret (Some d))
         \/ (aborts_scan p d = true
             /\ for_of (l1 ++ d1 :: rest) (get_step this (Some p) None)
                = invalid_definition d)).
Proof.
  intros Hd1. induction l1 as [|x l1 IH].
  - exists [], d1, []. repeat split; [constructor|]. left. split; [assumption|].
    apply for_of_return. by rewrite get_step_path, Hd1.
  - destruct (structurally_matches this p x) eqn:Hx.
    + exists [], x, (l1 ++ [d1]). repeat split; [constructor|]. left.
      split; [assumption|]. rewrite <- app_comm_cons.
      apply for_of_return. by rewrite get_step_path, Hx.
    + destruct (aborts_scan p x) eqn:Ha.
      * exists [], x, (l1 ++ [d1]). repeat split; [constructor|]. right.
        split; [assumption|]. rewrite <- app_comm_cons.
        apply for_of_throw. by rewrite get_step_path, Hx, Ha.
      * destruct IH as (pre & d & post & Heq & Hpre & Hres).
        exists (x :: pre), d, post. split; [|split].
        -- rewrite <- !app_comm_cons. by rewrite Heq.
        -- by constructor.
        -- rewrite <- app_comm_cons, for_of_continue;
             [assumption | by apply get_step_passes].
Qed.

(** C1 (priority law, amended). When two definitions of the built-in
    sequence both structurally match the path, the scan ends at or before
    the earlier one and never reaches the later one: [get(path)] returns the
    first structurally-matching definition of the sequence, unless a
    definition without scope and matcher is reached before it, in which case
    resolution aborts there. When nothing in front of the earlier definition
    matches or aborts, the earlier definition itself is returned. *)
Theorem priority_law (this : FileType) (p : string)
    (l1 : list IFileType) (d1 : IFileType) (l2 : list IFileType)
    (d2 : IFileType) (l3 : list IFileType) :
  fileTypes this = l1 ++ d1 :: l2 ++ d2 :: l3 ->
  structurally_matches this p d1 = true ->
  structurally_matches this p d2 = true ->
  (exists pre d post,
      l1 ++ [d1] = pre ++ d :: post
      /\ Forall (fun x => structurally_matches this p x = false
                           /\ aborts_scan p x = false) pre
      /\ ((structurally_matches this p d = true
            /\ get this (Some p) None = ret (Some d))
           \/ (aborts_scan p d = true
               /\ get this (Some p) None = invalid_definition d)))
  /\ (Forall (fun x => structurally_matches this p x = false
                        /\ aborts_scan p x = false) l1 ->
      get this (Some p) None = ret (Some d1)).
Proof.
  intros Hseq Hd1 _. rewrite get_scan, Hseq. split.
  - by apply scan_decided_in_prefix.
  - intros Hl1. rewrite for_of_skip_prefix.
    + apply for_of_return. by rewrite get_step_path, Hd1.
    + eapply Forall_impl; [exact Hl1|]. intros x [Hm Ha]. by apply get_step_passes.
Qed.

(** C2 (extension-filter law, amended). For a definition that declares
    [fileExtensions] and a path whose extension is not empty and not in that
    list, the definition is skipped and [get(path)] never returns it. (A
    path without extension is not filtered.) *)
Theorem extension_filter_law (this : FileType) (p : string) (d : IFileType)
    (exts : list string) :
  detect d ≫= fileExtensions = Some exts ->
  extname p <> "" ->
  ~ In (extname p) exts ->
  get_step this (Some p) None d = ret None
  /\ completion (get this (Some p) None) <> Normal (Some d).
Proof.
  intros Hexts Hne Hnin.
  assert (Hrej : extension_rejected d (Some (extname p)) = true).
  { unfold extension_rejected. rewrite Hexts.
    apply andb_true_intro. split; [by apply truthy_string_nonempty|].
    apply negb_true_iff. destruct (includes exts (extname p)) eqn:Hin; [|reflexivity].
    by apply includes_In in Hin. }
  assert (Hm : structurally_matches this p d = false).
  { unfold structurally_matches. rewrite Hrej. simpl. by rewrite andb_false_r. }
  assert (Ha : aborts_scan p d = false).
  { unfold aborts_scan. rewrite Hrej. simpl. by rewrite andb_false_r. }
  split; [by apply get_step_passes|].
  rewrite get_scan. intros Hget. apply for_of_return_inv in Hget as (x & _ & Hx).
  rewrite get_step_path in Hx.
  destruct (structurally_matches this p x) eqn:Hmx.
  - simpl in Hx. injection Hx as ->. congruence.
  - destruct (aborts_scan p x); discriminate.
Qed.


(** C4 (fatal-config law). With a path supplied, when the scan reaches a
    definition that has neither scope nor matcher, that is not returned by
    the id check and not skipped by the extension filter, [get] logs that
    definition and aborts with the error; it does not go on to the
    definitions behind it. *)
Theorem fatal_config_law (this : FileType) (p : string) (searchFileType : option string)
    (pre : list IFileType) (d : IFileType) (post : list IFileType) :
  fileTypes this = pre ++ d :: post ->
  truthy_string p = true ->
  Forall (fun x => get_step this (Some p) searchFileType x = ret None) pre ->
  searchFileType <> Some (id d) ->
  extension_rejected d (Some (extname p)) = false ->
  hasScope d = false ->
  hasMatcher d = false ->
  get this (Some p) searchFileType = invalid_definition d.
Proof.
  intros Hseq Hp Hpre Hsid Hext Hs Hm.
  rewrite get_scan, Hseq, for_of_skip_prefix by assumption.
  apply for_of_throw.
  assert (Hstep : get_step this (Some p) None d = invalid_definition d).
  { rewrite get_step_path. unfold structurally_matches, aborts_scan.
    by rewrite Hp, Hext, Hs, Hm. }
  destruct searchFileType as [sid|]; [|exact Hstep].
  rewrite get_step_other_id; [exact Hstep | congruence].
Qed.

(** ** Laws of the registry *)

Lemma for_of_ext {A B} (l : list A) (body1 body2 : A -> Eff (option B)) :
  (forall x, body1 x = body2 x) -> for_of l body1 = for_of l body2.
Proof.
  intros Hext. induction l as [|x l IH]; [reflexivity|].
  simpl. by rewrite Hext, IH.
Qed.

(** Only the project configuration and the built-in sequence are read. *)
Lemma observations_frame (this this' : FileType)
    (filePath searchFileType : option string) (fileHandle : FileHandle) :
  projectConfig this' = projectConfig this ->
  fileTypes this' = fileTypes this ->
  observations this' filePath searchFileType fileHandle
  = observations this filePath searchFileType fileHandle.
Proof.
  intros Hcfg Hseq.
  assert (Hprefix : forall pts ms, prefixMatchers this' pts ms = prefixMatchers this pts ms).
  { intros. unfold prefixMatchers. by rewrite Hcfg. }
  unfold observations, get, getIds, guessFolder. rewrite Hseq.
  do 2 f_equal.
  apply for_of_ext. intros d. unfold get_body.
  destruct (match searchFileType with Some _ => _ | None => _ end); [reflexivity|].
  destruct filePath as [p|]; [|reflexivity].
  destruct (truthy_string p); [|reflexivity].
  unfold get_detect. by rewrite !Hprefix.
Qed.

(** C5 (plugin separation). The results of [get], [getIds] and
    [guessFolder] do not depend on the plugin collection of the registry:
    they are the same for any plugin collection next to the same built-in
    sequence. [addPluginFileType], the disposer it returns and
    [setPluginFileTypes] leave the built-in sequence as it is, and with it
    those results. *)
Theorem plugin_separation_law (this : FileType)
    (filePath searchFileType : option string) (fileHandle : FileHandle) :
  (forall plugins : list ObjRef,
      observations (mkState (projectConfig this) plugins (fileTypes this))
                   filePath searchFileType fileHandle
      = observations this filePath searchFileType fileHandle)
  /\ (forall fileDef : ObjRef,
        let after := snd (addPluginFileType fileDef this) in
        fileTypes after = fileTypes this
        /\ observations after filePath searchFileType fileHandle
           = observations this filePath searchFileType fileHandle)
  /\ (forall fileDef : ObjRef,
        let disposer := fst (addPluginFileType fileDef this) in
        let added := snd (addPluginFileType fileDef this) in
        let after := snd (disposer added) in
        fileTypes after = fileTypes this
        /\ observations after filePath searchFileType fileHandle
           = observations this filePath searchFileType fileHandle)
  /\ (forall fileDefs : option (list ObjRef),
        let after := setPluginFileTypes fileDefs this in
        fileTypes after = fileTypes this
        /\ observations after filePath searchFileType fileHandle
           = observations this filePath searchFileType fileHandle).
Proof.
  repeat split; try reflexivity; by apply observations_frame.
Qed.

(** *** Template expansion *)

Lemma prefixMatchers_inner_app (cfg : ProjectConfig) (packType : TPackTypeId)
    (matchers prefixed : list string) :
  prefixMatchers_inner cfg packType matchers prefixed
  = prefixed ++ map (resolvePackPath cfg (Some packType)) matchers.
Proof.
  unfold prefixMatchers_inner. revert prefixed.
  induction matchers as [|m matchers IH]; intros prefixed; simpl.
  - by rewrite app_nil_r.
  - rewrite IH, <- app_assoc. reflexivity.
Qed.

Lemma prefixMatchers_outer_app (cfg : ProjectConfig) (packTypes : list TPackTypeId)
    (matchers prefixed : list string) :
  fold_left (fun acc packType => prefixMatchers_inner cfg packType matchers acc)
            packTypes prefixed
  = prefixed ++ flat_map (fun packType =>
                            map (resolvePackPath cfg (Some packType)) matchers)
                         packTypes.
Proof.
  revert prefixed.
  induction packTypes as [|pt packTypes IH]; intros prefixed; simpl.
  - by rewrite app_nil_r.
  - rewrite IH, prefixMatchers_inner_app, <- app_assoc. reflexivity.
Qed.

Lemma lookup_map {A B} (f : A -> B) (l : list A) (j : nat) :
  map f l !! j = f <$> l !! j.
Proof.
  revert j. induction l as [|x l IH]; intros [|j]; simpl; try reflexivity.
  apply IH.
Qed.

(** Position in a concatenation of blocks of equal length. *)
Lemma lookup_flat_map_block {A B} (f : A -> list B) (n : nat) (l : list A)
    (i j : nat) (x : A) :
  (forall a, length (f a) = n) ->
  l !! i = Some x -> j < n ->
  flat_map f l !! (i * n + j) = f x !! j.
Proof.
  intros Hlen. revert i. induction l as [|a l IH]; intros i Hi Hj; [by destruct i|].
  destruct i as [|i]; simpl in *.
  - injection Hi as ->. apply lookup_app_l. by rewrite Hlen.
  - rewrite lookup_app_r by (rewrite Hlen; lia).
    rewrite Hlen. replace (n + i * n + j - n) with (i * n + j) by lia.
    by apply IH.
Qed.

Lemma length_flat_map_block {A B} (f : A -> list B) (n : nat) (l : list A) :
  (forall a, length (f a) = n) -> length (flat_map f l) = length l * n.
Proof.
  intros Hlen. induction l as [|a l IH]; [reflexivity|].
  simpl. rewrite length_app, Hlen, IH. reflexivity.
Qed.

(** C6 (template expansion). Without a project configuration the expansion
    is empty. With an empty category list it holds one string per template,
    resolved with no category, in template order. With a non-empty category
    list it holds one string per (category, template) pair, the categories
    in their listed order in the outer loop and the templates in the inner
    one: the pair at positions [i] and [j] is found at index
    [i * length matchers + j]. *)
Theorem template_expansion_law (this : FileType) (packTypes : list TPackTypeId)
    (matchers : list string) :
  (projectConfig this = None -> prefixMatchers this packTypes matchers = [])
  /\ (forall cfg, projectConfig this = Some cfg ->
        (packTypes = [] ->
           prefixMatchers this packTypes matchers
           = map (resolvePackPath cfg None) matchers
           /\ length (prefixMatchers this packTypes matchers) = length matchers)
        /\ (packTypes <> [] ->
             prefixMatchers this packTypes matchers
             = flat_map (fun packType =>
                           map (resolvePackPath cfg (Some packType)) matchers)
                        packTypes
             /\ length (prefixMatchers this packTypes matchers)
                = length packTypes * length matchers
             /\ forall i j packType matcher,
                 packTypes !! i = Some packType ->
                 matchers !! j = Some matcher ->
                 prefixMatchers this packTypes matchers !! (i * length matchers + j)
                 = Some (resolvePackPath cfg (Some packType) matcher))).
Proof.
  split.
  - intros Hcfg. unfold prefixMatchers. by rewrite Hcfg.
  - intros cfg Hcfg. unfold prefixMatchers. rewrite Hcfg. split.
    + intros ->. simpl. split; [reflexivity | apply length_map].
    + intros Hne. destruct packTypes as [|pt packTypes]; [by destruct Hne|].
      change (length (pt :: packTypes) =? 0)%nat with false. cbv iota.
      rewrite prefixMatchers_outer_app, app_nil_l.
      assert (Hblock : forall a : TPackTypeId,
                 length (map (resolvePackPath cfg (Some a)) matchers) = length matchers)
        by (intros; apply length_map).
      split; [reflexivity|]. split.
      * by apply length_flat_map_block.
      * intros i j packType matcher Hi Hj.
        rewrite (lookup_flat_map_block _ (length matchers) _ i j packType Hblock Hi).
        -- by rewrite lookup_map, Hj.
        -- by apply lookup_lt_Some in Hj.
Qed.

(** *** Disposal *)

Lemma set_has_true (s : list ObjRef) (x : ObjRef) : set_has s x = true <-> x ∈ s.
Proof. unfold set_has. rewrite bool_decide_eq_true. reflexivity. Qed.

Lemma set_has_false (s : list ObjRef) (x : ObjRef) : set_has s x = false <-> x ∉ s.
Proof. unfold set_has. rewrite bool_decide_eq_false. reflexivity. Qed.

Lemma elem_of_set_add (s : list ObjRef) (x y : ObjRef) :
  y ∈ set_add s x <-> y = x \/ y ∈ s.
Proof.
  unfold set_add. destruct (set_has s x) eqn:Hx.
  - apply set_has_true in Hx. split; [auto|]. intros [->|Hy]; assumption.
  - rewrite elem_of_app, list_elem_of_singleton. tauto.
Qed.

Lemma elem_of_set_delete (s : list ObjRef) (x y : ObjRef) :
  y ∈ snd (set_delete s x) <-> y <> x /\ y ∈ s.
Proof. unfold set_delete. simpl. by rewrite list_elem_of_filter. Qed.

Lemma set_delete_absent (s : list ObjRef) (x : ObjRef) :
  x ∉ s -> set_delete s x = (false, s).
Proof.
  intros Hx. unfold set_delete. f_equal; [by apply set_has_false|].
  induction s as [|y s IH]; [reflexivity|].
  apply not_elem_of_cons in Hx as [Hne Hs].
  rewrite filter_cons_True by congruence. by rewrite IH.
Qed.

Lemma NoDup_set_add (s : list ObjRef) (x : ObjRef) : NoDup s -> NoDup (set_add s x).
Proof.
  intros Hs. unfold set_add. destruct (set_has s x) eqn:Hx; [assumption|].
  apply set_has_false in Hx. apply NoDup_app. repeat split; [assumption| |apply NoDup_singleton].
  intros y Hy Hy'. apply list_elem_of_singleton in Hy'. by subst.
Qed.

Lemma NoDup_set_delete (s : list ObjRef) (x : ObjRef) :
  NoDup s -> NoDup (snd (set_delete s x)).
Proof. intros Hs. unfold set_delete. simpl. by apply NoDup_filter. Qed.

(** The plugin collection never holds a reference twice. *)
Lemma plugin_collection_NoDup (this : FileType) (d : ObjRef)
    (fileDefs : option (list ObjRef)) :
  NoDup (pluginFileTypes this) ->
  NoDup (pluginFileTypes (snd (addPluginFileType d this)))
  /\ NoDup (pluginFileTypes (snd (dispose d this)))
  /\ NoDup (pluginFileTypes (setPluginFileTypes fileDefs this)).
Proof.
  intros Hs. split; [by apply NoDup_set_add|]. split.
  - unfold dispose. simpl. by apply NoDup_filter.
  - unfold setPluginFileTypes, set_clear. simpl.
    generalize (default [] fileDefs). intros l.
    assert (Hnil : NoDup (@nil ObjRef)) by constructor.
    revert Hnil. generalize (@nil ObjRef).
    induction l as [|x l IH]; intros acc Hacc; [assumption|].
    simpl. apply IH. by apply NoDup_set_add.
Qed.

(** C7 (disposal law). After [addPluginFileType(d)] and a call of the
    returned disposer, [getPluginFileTypes()] does not contain [d]; the
    disposer removed [d] and nothing else (every other definition is a
    member afterwards exactly when it was one before); a second call of the
    same disposer reports that nothing was removed and leaves the state as
    it is. *)
Theorem disposal_law (this : FileType) (d : ObjRef) :
  let disposer := fst (addPluginFileType d this) in
  let added := snd (addPluginFileType d this) in
  let disposed := snd (disposer added) in
  (d ∈ getPluginFileTypes added)
  /\ fst (disposer added) = true
  /\ (d ∉ getPluginFileTypes disposed)
  /\ (forall x, x <> d ->
        (x ∈ getPluginFileTypes disposed <-> x ∈ getPluginFileTypes added)
        /\ (x ∈ getPluginFileTypes disposed <-> x ∈ getPluginFileTypes this))
  /\ disposer disposed = (false, disposed).
Proof.
  simpl. unfold dispose, getPluginFileTypes. simpl.
  assert (Hin : d ∈ set_add (pluginFileTypes this) d)
    by (apply elem_of_set_add; auto).
  assert (Hout : d ∉ filter (fun y => y <> d) (set_add (pluginFileTypes this) d)).
  { rewrite list_elem_of_filter. tauto. }
  split; [assumption|]. split; [by apply set_has_true|]. split; [assumption|]. split.
  - intros x Hx. rewrite list_elem_of_filter, elem_of_set_add. tauto.
  - pose proof (set_delete_absent _ _ Hout) as Hdel. unfold set_delete in Hdel.
    injection Hdel as Hhas Hfilter. by rewrite Hhas, Hfilter.
Qed.

(** ** Laws of the placement guesser *)

Lemma getStartPath_first (sc : OneOrMany string) (d : IFileType) (s : string) :
  detect d ≫= scope = Some sc -> first_scope_entry d = Some s ->
  getStartPath sc = ret (normalized s).
Proof.
  unfold first_scope_entry, getStartPath, normalized. intros ->.
  destruct sc as [x|[|x xs]]; intros [= ->]; rewrite bind_ret;
    by destruct (endsWith s "/").
Qed.

(** A declared scope that is an empty array has no first entry: the helper
    raises. *)
Remark getStartPath_empty_array : getStartPath (Many []) = throw JsTypeError.
Proof. reflexivity. Qed.

Lemma detect_default_scope (d : IFileType) :
  scope (default empty_detect (detect d)) = detect d ≫= scope.
Proof. by destruct (detect d). Qed.

Lemma detect_default_fileContent (d : IFileType) :
  fileContent (default empty_detect (detect d)) = detect d ≫= fileContent.
Proof. by destruct (detect d). Qed.

Lemma guess_by_content_skip (json : JSON) (d : IFileType) :
  content_candidate d = false -> guess_by_content json d = ret None.
Proof.
  unfold content_candidate, guess_by_content.
  rewrite detect_default_scope, detect_default_fileContent.
  destruct (detect d ≫= scope) as [sc|];
    [|by destruct (type d) as [[| |]|]].
  destruct (detect d ≫= fileContent) as [fc|];
    [|by destruct (type d) as [[| |]|]].
  destruct (truthy_one_or_many (Some sc));
    destruct (type d) as [[| |]|]; simpl; try reflexivity; discriminate.
Qed.

Lemma guess_by_content_candidate (json : JSON) (d : IFileType) (s : string) :
  content_candidate d = true -> first_scope_entry d = Some s ->
  guess_by_content json d = ret (Some (normalized s)).
Proof.
  unfold content_candidate, guess_by_content.
  rewrite detect_default_scope, detect_default_fileContent.
  intros Hc Hs. apply andb_prop in Hc as [Hc Hfc]. apply andb_prop in Hc as [Hty Hsc].
  apply bool_decide_eq_true in Hfc as [fc Hfc]. rewrite Hfc.
  destruct (detect d ≫= scope) as [sc|] eqn:Hscope; [|discriminate].
  assert (Hkind : match type d with
                  | Some KindJson => false | Some _ => true | None => false
                  end = false) by (by destruct (type d) as [[| |]|]).
  rewrite Hkind, Hsc. simpl.
  rewrite (getStartPath_first sc d s Hscope Hs). by rewrite bind_ret.
Qed.

(** X23. Phase 2 of [guessFolder], for a file handle whose name ends in
    [.json] and for which phase 1 finds nothing: when the content does not
    parse, the answer is [null] and nothing is raised; when it parses and the
    first definition whose type is unspecified or [json] and whose scope and
    fileContent are both declared has a first scope entry, the answer is
    that entry, with [/] appended unless it already ends with it, whatever
    the parsed value is; and [null] when there is no such definition. *)
Theorem placement_guess_content_law (this : FileType) (fileHandle : FileHandle)
    (file : File) (content : string) :
  endsWith (name fileHandle) ".json" = true ->
  for_of (fileTypes this)
         (guess_by_extension ("." ++ pop (split (name fileHandle) "."%char))%string)
  = ret None ->
  getFile fileHandle = Normal file ->
  text file = Normal content ->
  (parse content = None -> guessFolder this fileHandle = ret None)
  /\ (forall json, parse content = Some json ->
        (forall pre d post s,
            fileTypes this = pre ++ d :: post ->
            Forall (fun x => content_candidate x = false) pre ->
            content_candidate d = true ->
            first_scope_entry d = Some s ->
            guessFolder this fileHandle = ret (Some (normalized s)))
        /\ (Forall (fun x => content_candidate x = false) (fileTypes this) ->
            guessFolder this fileHandle = ret None)).
Proof.
  intros Hname Hphase1 Hfile Htext.
  assert (Hguess : guessFolder this fileHandle =
            match parse content with
            | Some json => for_of (fileTypes this) (guess_by_content json)
            | None => ret None
            end).
  { unfold guessFolder. cbv zeta.
    rewrite Hphase1, (bind_ret (@None string)), Hname, Hfile. simpl negb. cbv iota.
    rewrite lift_normal, (bind_ret file), Htext, lift_normal, (bind_ret content).
    destruct (parse content) as [json|].
    - by rewrite try_catch_ret, (bind_ret (Some json)).
    - by rewrite try_catch_throw, (bind_ret (@None JSON)). }
  rewrite Hguess. split; [by intros ->|].
  intros json ->. split.
  - intros pre d post s Hseq Hpre Hd Hs. rewrite Hseq, for_of_skip_prefix.
    + apply for_of_return. by apply guess_by_content_candidate.
    + eapply Forall_impl; [exact Hpre|]. intros x. apply guess_by_content_skip.
  - intros Hall. apply for_of_all_continue.
    eapply Forall_impl; [exact Hall|]. intros x. apply guess_by_content_skip.
Qed.

Lemma guessFolder_phase2 (this : FileType) (fileHandle : FileHandle)
    (file : File) (content : string) :
  endsWith (name fileHandle) ".json" = true ->
  for_of (fileTypes this)
         (guess_by_extension ("." ++ pop (split (name fileHandle) "."%char))%string)
  = ret None ->
  getFile fileHandle = Normal file ->
  text file = Normal content ->
  guessFolder this fileHandle =
    match parse content with
    | Some json => for_of (fileTypes this) (guess_by_content json)
    | None => ret None
    end.
Proof.
  intros Hname Hphase1 Hfile Htext. unfold guessFolder. cbv zeta.
  rewrite Hphase1, (bind_ret (@None string)), Hname, Hfile. simpl negb. cbv iota.
  rewrite lift_normal, (bind_ret file), Htext, lift_normal, (bind_ret content).
  destruct (parse content) as [json|].
  - by rewrite try_catch_ret, (bind_ret (Some json)).
  - by rewrite try_catch_throw, (bind_ret (@None JSON)).
Qed.

Lemma guess_by_content_empty_scope (json : JSON) (d : IFileType) :
  content_candidate d = true -> detect d ≫= scope = Some (Many []) ->
  guess_by_content json d = throw JsTypeError.
Proof.
  unfold content_candidate, guess_by_content.
  rewrite detect_default_scope, detect_default_fileContent.
  intros Hc Hscope. rewrite Hscope in *.
  apply andb_prop in Hc as [Hc Hfc]. apply andb_prop in Hc as [Hty _].
  apply bool_decide_eq_true in Hfc as [fc Hfc]. rewrite Hfc.
  assert (Hkind : match type d with
                  | Some KindJson => false | Some _ => true | None => false
                  end = false) by (by destruct (type d) as [[| |]|]).
  by rewrite Hkind.
Qed.

(** C8 (placement guess, phase 2): where the code departs from the law. For
    a file handle whose name ends in [.json], for which phase 1 finds
    nothing and whose content parses, when the first definition whose type
    is unspecified or [json] and that declares both scope and fileContent
    has an empty array as scope, [guessFolder] raises a [TypeError]: it
    returns neither a folder nor [null]. *)
Theorem placement_guess_empty_scope_defect (this : FileType) (fileHandle : FileHandle)
    (file : File) (content : string) (json : JSON)
    (pre : list IFileType) (d : IFileType) (post : list IFileType) :
  endsWith (name fileHandle) ".json" = true ->
  for_of (fileTypes this)
         (guess_by_extension ("." ++ pop (split (name fileHandle) "."%char))%string)
  = ret None ->
  getFile fileHandle = Normal file ->
  text file = Normal content ->
  parse content = Some json ->
  fileTypes this = pre ++ d :: post ->
  Forall (fun x => content_candidate x = false) pre ->
  content_candidate d = true ->
  detect d ≫= scope = Some (Many []) ->
  guessFolder this fileHandle = throw JsTypeError.
Proof.
  intros Hname Hphase1 Hfile Htext Hparse Hseq Hpre Hd Hscope.
  rewrite (guessFolder_phase2 this fileHandle file content Hname Hphase1 Hfile Htext).
  rewrite Hparse, Hseq, for_of_skip_prefix.
  - apply for_of_throw. by apply guess_by_content_empty_scope.
  - eapply Forall_impl; [exact Hpre|]. intros x. apply guess_by_content_skip.
Qed.

(** ** Strings with a given suffix *)

Lemma string_append_cons (c : ascii) (s t : string) :
  (String c s ++ t)%string = String c (s ++ t).
Proof. reflexivity. Qed.

Lemma string_length_append (s t : string) :
  String.length (s ++ t) = String.length s + String.length t.
Proof.
  induction s as [|c s IH]; [reflexivity|].
  rewrite string_append_cons. simpl. by rewrite IH.
Qed.

Lemma substring_full (s : string) : substring 0 (String.length s) s = s.
Proof. induction s as [|c s IH]; [reflexivity | simpl; by rewrite IH]. Qed.

Lemma substring_after_prefix (pre t : string) :
  substring (String.length pre) (String.length t) (pre ++ t) = t.
Proof.
  induction pre as [|c pre IH]; [apply substring_full|].
  rewrite string_append_cons. exact IH.
Qed.

(** A string is what lies before an index followed by what lies behind it. *)
Lemma substring_cut (s : string) (n : nat) :
  n <= String.length s ->
  s = (substring 0 n s ++ substring n (String.length s - n) s)%string.
Proof.
  revert s. induction n as [|n IH]; intros s Hn.
  - rewrite Nat.sub_0_r, substring_full. by destruct s.
  - destruct s as [|c s]; simpl in Hn; [lia|].
    simpl. rewrite string_append_cons. f_equal. apply IH. lia.
Qed.

(** [endsWith] holds exactly of the strings that are something followed by
    the suffix. *)
Lemma endsWith_spec (s suffix : string) :
  endsWith s suffix = true <-> exists stem, s = (stem ++ suffix)%string.
Proof.
  unfold endsWith. split.
  - intros H. apply andb_prop in H as [Hlen Heq].
    apply Nat.leb_le in Hlen. apply String.eqb_eq in Heq.
    pose proof (substring_cut s (String.length s - String.length suffix)
                  ltac:(lia)) as Hcut.
    replace (String.length s - (String.length s - String.length suffix))
      with (String.length suffix) in Hcut by lia.
    rewrite Heq in Hcut. eauto.
  - intros (stem & ->). rewrite string_length_append.
    apply andb_true_intro. split; [apply Nat.leb_le; lia|].
    replace (String.length stem + String.length suffix - String.length suffix)
      with (String.length stem) by lia.
    rewrite substring_after_prefix. apply String.eqb_refl.
Qed.

(** ** Laws of the accessors *)

(** C9 (getId sentinel). [getId(path)] returns the id of the definition
    that [get(path)] resolves, and the string [unknown] when [get(path)]
    finds nothing, without raising; in particular for a path on which every
    definition of the sequence is passed over. [getId] raises only when
    [get] itself aborted. *)
Theorem getId_sentinel_law (this : FileType) (p : string) :
  (forall d, get this (Some p) None = ret (Some d) -> getId this p = ret (id d))
  /\ (get this (Some p) None = ret None -> getId this p = ret "unknown")
  /\ (Forall (fun x => structurally_matches this p x = false
                        /\ aborts_scan p x = false) (fileTypes this) ->
      getId this p = ret "unknown")
  /\ (forall log e, getId this p = mkEff log (Throw e) ->
        get this (Some p) None = mkEff log (Throw e)).
Proof.
  unfold getId. repeat split.
  - intros d ->. by rewrite bind_ret.
  - intros ->. by rewrite bind_ret.
  - intros Hall. rewrite get_scan, for_of_all_continue; [by rewrite bind_ret|].
    eapply Forall_impl; [exact Hall|]. intros x [Hm Ha]. by apply get_step_passes.
  - intros log e. unfold bind.
    destruct (get this (Some p) None) as [l [v|e']]; simpl; [discriminate|].
    by intros [= -> ->].
Qed.

(** C10 (isJsonFile, amended). On a path for which [get(path)] returns:
    when the resolved definition declares a non-empty [meta.language],
    [isJsonFile(path)] returns whether that language is [json]; otherwise,
    that is, when [get(path)] finds nothing, when the resolved definition
    declares no [meta.language], or when it declares the empty string,
    [isJsonFile(path)] returns whether the path is some text followed by
    [.json]. In each of these cases the result is a boolean. *)
Theorem isJsonFile_law (this : FileType) (p : string) (found : option IFileType) :
  get this (Some p) None = ret found ->
  (forall l, (found ≫= meta) ≫= language = Some l -> l <> "" ->
     exists b : bool, isJsonFile this p = ret b /\ (b = true <-> l = "json"))
  /\ ((found ≫= meta) ≫= language = None
      \/ (found ≫= meta) ≫= language = Some "" ->
      exists b : bool,
        isJsonFile this p = ret b
        /\ (b = true <-> exists stem, p = (stem ++ ".json")%string)).
Proof.
  intros Hget. unfold isJsonFile. rewrite Hget, (bind_ret found). split.
  - intros l -> Hl. apply truthy_string_nonempty in Hl. rewrite Hl.
    exists (String.eqb l "json"). split; [reflexivity | apply String.eqb_eq].
  - intros Hlang. exists (endsWith p ".json"). split; [|apply endsWith_spec].
    by destruct Hlang as [-> | ->].
Qed.

(** ** Further laws of the resolution engine *)

(** Every iteration of [get], whatever was requested. *)
Lemma get_step_spec (this : FileType) (filePath searchFileType : option string)
    (d : IFileType) :
  get_step this filePath searchFileType d =
    if match searchFileType with
       | Some wanted => String.eqb wanted (id d)
       | None => false
       end
    then ret (Some d)
    else match filePath with
         | Some p =>
             if structurally_matches this p d then ret (Some d)
             else if aborts_scan p d then invalid_definition d
             else ret None
         | None => ret None
         end.
Proof.
  destruct filePath as [p|].
  - rewrite <- get_step_path. unfold get_step, get_body.
    by destruct (match searchFileType with Some _ => _ | None => _ end).
  - reflexivity.
Qed.

Lemma get_step_trichotomy (this : FileType) (filePath searchFileType : option string)
    (d : IFileType) :
  get_step this filePath searchFileType d = ret None
  \/ get_step this filePath searchFileType d = ret (Some d)
  \/ get_step this filePath searchFileType d = invalid_definition d.
Proof.
  rewrite get_step_spec.
  destruct (match searchFileType with Some _ => _ | None => _ end); [auto|].
  destruct filePath as [p|]; [|auto].
  destruct (structurally_matches this p d); [auto|].
  destruct (aborts_scan p d); auto.
Qed.

(** A loop whose iterations only fall through, return or raise either falls
    through everywhere or ends with the outcome of its first iteration that
    does not fall through. *)
Lemma for_of_outcome {A B} (l : list A) (body : A -> Eff (option B)) :
  (forall x, body x = ret None
             \/ (exists v, body x = ret (Some v))
             \/ (exists log e, body x = mkEff log (Throw e))) ->
  (for_of l body = ret None /\ Forall (fun x => body x = ret None) l)
  \/ (exists pre x post,
        l = pre ++ x :: post
        /\ Forall (fun y => body y = ret None) pre
        /\ body x <> ret None
        /\ forall rest, for_of (pre ++ x :: rest) body = body x).
Proof.
  intros Hbody. induction l as [|x l IH].
  - left. split; [reflexivity | constructor].
  - destruct (Hbody x) as [Hx | [(v & Hx) | (log & e & Hx)]].
    + destruct IH as [[Hl Hall] | (pre & y & post & -> & Hpre & Hy & Hres)].
      * left. split; [by rewrite for_of_continue | by constructor].
      * right. exists (x :: pre), y, post. repeat split; [by constructor | assumption |].
        intros rest. rewrite <- app_comm_cons, for_of_continue by assumption. apply Hres.
    + right. exists [], x, l. repeat split; [constructor | by rewrite Hx |].
      intros rest. simpl app. rewrite Hx. by apply for_of_return.
    + right. exists [], x, l. repeat split; [constructor | by rewrite Hx |].
      intros rest. simpl app. rewrite Hx. by apply for_of_throw.
Qed.

Lemma get_step_shapes (this : FileType) (filePath searchFileType : option string)
    (d : IFileType) :
  get_step this filePath searchFileType d = ret None
  \/ (exists v, get_step this filePath searchFileType d = ret (Some v))
  \/ (exists log e, get_step this filePath searchFileType d = mkEff log (Throw e)).
Proof.
  destruct (get_step_trichotomy this filePath searchFileType d) as [H|[H|H]];
    rewrite H; [auto | right; left; eauto | right; right].
  unfold invalid_definition. eauto.
Qed.

Lemma getIds_map (this : FileType) : getIds this = map id (fileTypes this).
Proof.
  unfold getIds.
  assert (Hpush : forall l acc,
             fold_left (fun ids fileType => ids ++ [id fileType]) l acc
             = acc ++ map id l).
  { induction l as [|d l IH]; intros acc; simpl; [by rewrite app_nil_r|].
    by rewrite IH, <- app_assoc. }
  by rewrite Hpush.
Qed.

(** X1. [getIds()] lists the ids of the built-in sequence in priority order,
    one per definition, duplicates included: the id at an index is the id of
    the definition at that index. *)
Theorem getIds_priority_order (this : FileType) :
  getIds this = map id (fileTypes this)
  /\ length (getIds this) = length (fileTypes this)
  /\ forall i, getIds this !! i = id <$> fileTypes this !! i.
Proof.
  rewrite getIds_map. split; [reflexivity|]. split; [apply length_map|].
  intros i. apply lookup_map.
Qed.

(** X2. With no usable path (absent or empty) and no requested id, [get]
    returns [undefined] for every registry and never aborts, even when the
    sequence holds invalid definitions. *)
Theorem get_nothing_requested (this : FileType) (filePath : option string) :
  truthy_path filePath = false -> get this filePath None = ret None.
Proof.
  intros Hpath. rewrite get_scan. apply for_of_all_continue.
  apply Forall_forall. intros d _. by apply get_step_no_path.
Qed.

(** X3. With no usable path, [get(undefined, id)] is a plain lookup by id: it
    returns the first definition of the sequence with that id, [undefined]
    when there is none, and never aborts. It finds a definition exactly when
    the id is listed by [getIds()]. *)
Theorem get_by_id_only (this : FileType) (filePath : option string) (sid : string) :
  truthy_path filePath = false ->
  get this filePath (Some sid)
  = ret (List.find (fun d => String.eqb sid (id d)) (fileTypes this))
  /\ ((exists d, get this filePath (Some sid) = ret (Some d)) <-> In sid (getIds this)).
Proof.
  intros Hpath.
  assert (Hget : get this filePath (Some sid)
                 = ret (List.find (fun d => String.eqb sid (id d)) (fileTypes this))).
  { rewrite get_scan. induction (fileTypes this) as [|d l IH]; [reflexivity|].
    simpl List.find. destruct (String.eqb_spec sid (id d)) as [Heq|Hne].
    - apply for_of_return. by apply get_step_found.
    - rewrite for_of_continue; [exact IH|].
      rewrite get_step_other_id by congruence. by apply get_step_no_path. }
  split; [exact Hget|]. rewrite Hget, getIds_map. split.
  - intros (d & [= Hfind]). apply find_some in Hfind as [Hin Heq].
    apply String.eqb_eq in Heq. subst sid. by apply in_map.
  - intros Hin. apply in_map_iff in Hin as (d & Hid & Hin).
    destruct (List.find (fun d0 => String.eqb sid (id d0)) (fileTypes this)) as [d'|] eqn:Hfind;
      [eauto|].
    exfalso. pose proof (find_none _ _ Hfind d Hin) as Hno. simpl in Hno.
    rewrite <- Hid, String.eqb_refl in Hno. discriminate.
Qed.

(** X4. Whatever [get] returns is a definition of the built-in sequence, and
    it either carries the requested id or structurally matches the path. *)
Theorem get_returns_member (this : FileType) (filePath searchFileType : option string)
    (d : IFileType) :
  completion (get this filePath searchFileType) = Normal (Some d) ->
  In d (fileTypes this)
  /\ (searchFileType = Some (id d)
      \/ exists p, filePath = Some p /\ structurally_matches this p d = true).
Proof.
  rewrite get_scan. intros Hget. apply for_of_return_inv in Hget as (x & Hin & Hx).
  rewrite get_step_spec in Hx.
  destruct searchFileType as [wanted|].
  - destruct (String.eqb_spec wanted (id x)) as [->|_].
    + injection Hx as <-. auto.
    + destruct filePath as [p|]; [|discriminate].
      destruct (structurally_matches this p x) eqn:Hm.
      * injection Hx as <-. split; [assumption|]. right. eauto.
      * destruct (aborts_scan p x); discriminate.
  - destruct filePath as [p|]; [|discriminate].
    destruct (structurally_matches this p x) eqn:Hm.
    + injection Hx as <-. split; [assumption|]. right. eauto.
    + destruct (aborts_scan p x); discriminate.
Qed.

(** X5. [get(path)] returns [undefined] exactly when no definition of the
    sequence structurally matches the path and none aborts the scan. *)
Theorem get_undefined_iff (this : FileType) (p : string) :
  get this (Some p) None = ret None
  <-> Forall (fun x => structurally_matches this p x = false
                       /\ aborts_scan p x = false) (fileTypes this).
Proof.
  rewrite get_scan. split.
  - intros Hget.
    destruct (for_of_outcome (fileTypes this) (get_step this (Some p) None)
                (get_step_shapes this (Some p) None))
      as [[_ Hall] | (pre & x & post & Heq & _ & Hx & Hres)].
    + eapply Forall_impl; [exact Hall|]. intros x Hx. simpl in Hx.
      rewrite get_step_path in Hx.
      destruct (structurally_matches this p x); [discriminate|].
      destruct (aborts_scan p x); [discriminate | auto].
    + exfalso. apply Hx. rewrite <- (Hres post), <- Heq. exact Hget.
  - intros Hall. apply for_of_all_continue.
    eapply Forall_impl; [exact Hall|]. intros x [Hm Ha]. by apply get_step_passes.
Qed.

(** X6. The invalid-definition error is raised only under the conditions of
    the fatal law: when [get] aborts with it, a usable path was supplied, the
    scan passed over every definition in front of some definition of the
    sequence that is not the one requested by id, passes its extension
    filter and has neither scope nor matcher, and that definition is the
    single line written to the console. When [get] returns, nothing was
    written to the console. *)
Theorem get_abort_shape (this : FileType) (filePath searchFileType : option string) :
  (forall log,
      get this filePath searchFileType
      = mkEff log (Throw (JsError invalid_definition_message)) ->
      exists p pre d post,
        filePath = Some p /\ truthy_string p = true
        /\ fileTypes this = pre ++ d :: post
        /\ Forall (fun x => get_step this filePath searchFileType x = ret None) pre
        /\ searchFileType <> Some (id d)
        /\ extension_rejected d (Some (extname p)) = false
        /\ hasScope d = false /\ hasMatcher d = false
        /\ log = [d])
  /\ (forall v, completion (get this filePath searchFileType) = Normal v ->
        console (get this filePath searchFileType) = []).
Proof.
  rewrite get_scan.
  destruct (for_of_outcome (fileTypes this) (get_step this filePath searchFileType)
              (get_step_shapes this filePath searchFileType))
    as [[Hnone _] | (pre & x & post & Heq & Hpre & Hx & Hres)].
  - rewrite Hnone. split; [discriminate | reflexivity].
  - rewrite Heq, (Hres post). rewrite get_step_spec in Hx |- *.
    destruct (match searchFileType with Some _ => _ | None => _ end) eqn:Hid;
      [split; [discriminate | reflexivity]|].
    destruct filePath as [p|]; [|by destruct Hx].
    destruct (structurally_matches this p x); [split; [discriminate | reflexivity]|].
    destruct (aborts_scan p x) eqn:Ha; [|by destruct Hx].
    split; [|discriminate].
    intros log [= <-]. unfold aborts_scan in Ha.
    apply andb_prop in Ha as [Ha Hm]. apply andb_prop in Ha as [Ha Hs].
    apply andb_prop in Ha as [Hp Hext].
    apply negb_true_iff in Hm, Hs, Hext.
    exists p, pre, x, post. repeat split; try assumption.
    intros ->. by rewrite String.eqb_refl in Hid.
Qed.

Lemma prefixMatchers_no_config (this : FileType) (packTypes : list TPackTypeId)
    (matchers : list string) :
  projectConfig this = None -> prefixMatchers this packTypes matchers = [].
Proof. intros Hcfg. unfold prefixMatchers. by rewrite Hcfg. Qed.

Lemma prefixMatchers_no_templates (this : FileType) (packTypes : list TPackTypeId) :
  prefixMatchers this packTypes [] = [].
Proof.
  unfold prefixMatchers. destruct (projectConfig this) as [cfg|]; [|reflexivity].
  destruct (length packTypes =? 0)%nat; [reflexivity|].
  rewrite prefixMatchers_outer_app, app_nil_l.
  induction packTypes as [|pt packTypes IH]; [reflexivity | exact IH].
Qed.

Lemma aborts_not_matches (this : FileType) (p : string) (d : IFileType) :
  aborts_scan p d = true -> structurally_matches this p d = false.
Proof.
  unfold aborts_scan, structurally_matches. intros Ha.
  apply andb_prop in Ha as [Ha Hm]. apply andb_prop in Ha as [_ Hs].
  apply negb_true_iff in Hm, Hs. rewrite Hs, Hm. simpl. apply andb_false_r.
Qed.

(** X7. Without a project configuration every expansion is empty: a
    definition with a scope is passed over, only a matcher-based definition
    accepted by the glob matcher on an empty pattern list can be returned, so
    with a matcher that rejects the empty list no path resolves. *)
Theorem no_config_resolves_nothing (this : FileType) (p : string) :
  projectConfig this = None ->
  (forall d, hasScope d = true -> get_step this (Some p) None d = ret None)
  /\ (forall d, completion (get this (Some p) None) = Normal (Some d) ->
        hasScope d = false /\ hasMatcher d = true /\ isMatch p [] = true)
  /\ (isMatch p [] = false ->
      forall d, completion (get this (Some p) None) <> Normal (Some d)).
Proof.
  intros Hcfg.
  assert (Hreturned : forall d,
             completion (get this (Some p) None) = Normal (Some d) ->
             hasScope d = false /\ hasMatcher d = true /\ isMatch p [] = true).
  { intros d. rewrite get_scan. intros Hget.
    apply for_of_return_inv in Hget as (x & _ & Hx). rewrite get_step_path in Hx.
    destruct (structurally_matches this p x) eqn:Hm;
      [|destruct (aborts_scan p x); discriminate].
    injection Hx as <-. unfold structurally_matches in Hm.
    rewrite !prefixMatchers_no_config in Hm by assumption.
    apply andb_prop in Hm as [_ Hm].
    destruct (hasScope x); [discriminate|].
    apply andb_prop in Hm as [Hmatcher Hglob]. auto. }
  split; [|split; [exact Hreturned|]].
  - intros d Hs. apply get_step_passes.
    + unfold structurally_matches. rewrite Hs, prefixMatchers_no_config by assumption.
      apply andb_false_r.
    + unfold aborts_scan. rewrite Hs. simpl. by rewrite andb_false_r.
  - intros Hglob d Hget. destruct (Hreturned d Hget) as (_ & _ & Htrue). congruence.
Qed.

(** X8. A definition whose scope is an empty array counts as having a
    scope, so it is neither matched nor reported as invalid, and its matcher
    is never consulted: the scan passes over it for every path. *)
Theorem empty_scope_array_skipped (this : FileType) (p : string) (d : IFileType) :
  detect d ≫= scope = Some (Many []) ->
  hasScope d = true /\ get_step this (Some p) None d = ret None.
Proof.
  intros Hscope.
  assert (Hs : hasScope d = true) by (unfold hasScope; by rewrite Hscope).
  split; [exact Hs|]. apply get_step_passes.
  - unfold structurally_matches. rewrite Hs, Hscope. simpl as_array.
    rewrite prefixMatchers_no_templates. apply andb_false_r.
  - unfold aborts_scan. rewrite Hs. simpl. by rewrite andb_false_r.
Qed.

Lemma get_step_frame (this this' : FileType) (filePath searchFileType : option string)
    (d : IFileType) :
  projectConfig this' = projectConfig this ->
  get_step this' filePath searchFileType d = get_step this filePath searchFileType d.
Proof.
  intros Hcfg. unfold get_step, get_body, get_detect, prefixMatchers.
  by rewrite Hcfg.
Qed.

(** X9. Definitions placed behind the built-in sequence never change a
    resolution that the sequence already decides (a returned definition or an
    abort); they are consulted only when the sequence alone yields
    [undefined], and then decide as if they were the whole sequence. *)
Theorem appended_definitions_law (this : FileType) (extra : list IFileType)
    (filePath searchFileType : option string) :
  (get this filePath searchFileType <> ret None ->
   get (append_definitions this extra) filePath searchFileType
   = get this filePath searchFileType)
  /\ (get this filePath searchFileType = ret None ->
      get (append_definitions this extra) filePath searchFileType
      = get (mkState (projectConfig this) (pluginFileTypes this) extra)
            filePath searchFileType).
Proof.
  rewrite !get_scan. simpl fileTypes.
  rewrite (for_of_ext (fileTypes this ++ extra)
             (get_step (append_definitions this extra) filePath searchFileType)
             (get_step this filePath searchFileType))
    by (intros; by apply get_step_frame).
  rewrite (for_of_ext extra
             (get_step (mkState (projectConfig this) (pluginFileTypes this) extra)
                       filePath searchFileType)
             (get_step this filePath searchFileType))
    by (intros; by apply get_step_frame).
  destruct (for_of_outcome (fileTypes this) (get_step this filePath searchFileType)
              (get_step_shapes this filePath searchFileType))
    as [[Hnone Hall] | (pre & x & post & Heq & _ & Hx & Hres)].
  - split; [by intros []|]. intros _. by apply for_of_skip_prefix.
  - rewrite Heq, <- app_assoc, <- app_comm_cons, !Hres. split; [reflexivity|].
    intros Hnone. by destruct Hx.
Qed.

(** X10. An invalid definition reached by the scan makes the accessors fail
    as well: [getId(path)] and [isJsonFile(path)] abort with the error of
    [get], after the same console line, instead of answering with the
    sentinel or the suffix test. *)
Theorem accessors_abort_on_invalid (this : FileType) (p : string)
    (pre : list IFileType) (d : IFileType) (post : list IFileType) :
  fileTypes this = pre ++ d :: post ->
  Forall (fun x => structurally_matches this p x = false
                   /\ aborts_scan p x = false) pre ->
  aborts_scan p d = true ->
  getId this p = mkEff [d] (Throw (JsError invalid_definition_message))
  /\ isJsonFile this p = mkEff [d] (Throw (JsError invalid_definition_message)).
Proof.
  intros Hseq Hpre Hd.
  assert (Hget : get this (Some p) None = invalid_definition d).
  { rewrite get_scan, Hseq, for_of_skip_prefix.
    - apply for_of_throw. by rewrite get_step_path, aborts_not_matches, Hd.
    - eapply Forall_impl; [exact Hpre|]. intros x [Hm Ha]. by apply get_step_passes. }
  unfold getId, isJsonFile. rewrite Hget. split; reflexivity.
Qed.

(** ** Further laws of the registry *)

Lemma filter_ne_absent (s : list ObjRef) (x : ObjRef) :
  x ∉ s -> filter (fun y => y <> x) s = s.
Proof.
  intros Hx. pose proof (set_delete_absent s x Hx) as Hdel.
  unfold set_delete in Hdel. by injection Hdel.
Qed.

Lemma elem_of_fold_set_add (l acc : list ObjRef) (x : ObjRef) :
  x ∈ fold_left set_add l acc <-> x ∈ acc \/ x ∈ l.
Proof.
  revert acc. induction l as [|y l IH]; intros acc; simpl.
  - rewrite elem_of_nil. tauto.
  - rewrite IH, elem_of_set_add, elem_of_cons. tauto.
Qed.

Lemma NoDup_fold_set_add (l acc : list ObjRef) :
  NoDup acc -> NoDup (fold_left set_add l acc).
Proof.
  revert acc. induction l as [|y l IH]; intros acc Hacc; [assumption|].
  simpl. apply IH. by apply NoDup_set_add.
Qed.

Lemma fold_set_add_fresh (l acc : list ObjRef) :
  NoDup (acc ++ l) -> fold_left set_add l acc = acc ++ l.
Proof.
  revert acc. induction l as [|y l IH]; intros acc Hnd; simpl.
  - by rewrite app_nil_r.
  - assert (Hy : y ∉ acc).
    { apply NoDup_app in Hnd as (_ & Hdisj & _). intros Hin.
      apply (Hdisj y Hin). by left. }
    unfold set_add at 2. apply set_has_false in Hy. rewrite Hy.
    rewrite IH; rewrite <- app_assoc; [reflexivity | exact Hnd].
Qed.

(** X11. [setPluginFileTypes(list)] replaces the plugin collection, whatever
    it held: afterwards [getPluginFileTypes()] holds exactly the members of
    the list, each once, in the order of their first occurrence; a list
    without repetition is read back as it is, and a call without argument
    empties the collection. *)
Theorem setPluginFileTypes_replaces (this : FileType) (fileDefs : option (list ObjRef)) :
  let after := setPluginFileTypes fileDefs this in
  NoDup (getPluginFileTypes after)
  /\ (forall x, x ∈ getPluginFileTypes after <-> x ∈ default [] fileDefs)
  /\ (forall l, fileDefs = Some l -> NoDup l -> getPluginFileTypes after = l)
  /\ (fileDefs = None -> getPluginFileTypes after = []).
Proof.
  simpl. unfold getPluginFileTypes, setPluginFileTypes, set_clear. simpl.
  split; [apply NoDup_fold_set_add; constructor|]. split; [|split].
  - intros x. rewrite elem_of_fold_set_add, elem_of_nil. tauto.
  - intros l -> Hl. simpl. by rewrite fold_set_add_fresh.
  - by intros ->.
Qed.

(** X12. Registering a definition that is not yet in the plugin collection
    puts it behind the others, and the returned disposer then restores the
    registry exactly as it was. *)
Theorem add_then_dispose_restores (this : FileType) (d : ObjRef) :
  d ∉ pluginFileTypes this ->
  let added := snd (addPluginFileType d this) in
  getPluginFileTypes added = pluginFileTypes this ++ [d]
  /\ snd (fst (addPluginFileType d this) added) = this.
Proof.
  intros Hd. destruct this as [cfg plugins defs]. simpl in *.
  unfold getPluginFileTypes, dispose, set_delete, set_add. simpl.
  apply set_has_false in Hd as Hhas. rewrite Hhas. split; [reflexivity|].
  rewrite filter_app, filter_ne_absent by assumption.
  rewrite filter_cons_False by (intros Hne; by apply Hne).
  by rewrite filter_nil, app_nil_r.
Qed.

(** X13. Registering a definition that is already in the plugin collection
    changes nothing, yet its disposer removes the definition: the earlier
    registration does not survive the disposal of the later one. *)
Theorem add_existing_then_dispose (this : FileType) (d : ObjRef) :
  d ∈ pluginFileTypes this ->
  snd (addPluginFileType d this) = this
  /\ fst (fst (addPluginFileType d this) this) = true
  /\ (d ∉ getPluginFileTypes (snd (fst (addPluginFileType d this) this))).
Proof.
  intros Hd. destruct this as [cfg plugins defs]. simpl in *.
  unfold getPluginFileTypes, dispose, set_delete, set_add. simpl.
  apply set_has_true in Hd as Hhas. rewrite Hhas. repeat split.
  rewrite list_elem_of_filter. tauto.
Qed.

(** X14. A disposer can be called at any later time, on whatever the
    registry has become: it answers whether its definition was still a
    member, leaves a registry without that definition untouched, never
    touches the built-in sequence or the configuration, and keeps every
    other member. *)
Theorem disposer_any_time (this later : FileType) (d : ObjRef) :
  let disposer := fst (addPluginFileType d this) in
  fst (disposer later) = bool_decide (d ∈ pluginFileTypes later)
  /\ (d ∉ pluginFileTypes later -> snd (disposer later) = later)
  /\ fileTypes (snd (disposer later)) = fileTypes later
  /\ projectConfig (snd (disposer later)) = projectConfig later
  /\ (forall x, x <> d ->
        (x ∈ getPluginFileTypes (snd (disposer later)) <-> x ∈ getPluginFileTypes later)).
Proof.
  destruct later as [cfg plugins defs]. simpl.
  unfold getPluginFileTypes, dispose, set_delete, set_has. simpl.
  split; [reflexivity|]. split; [|split; [reflexivity|split; [reflexivity|]]].
  - intros Hd. by rewrite filter_ne_absent.
  - intros x Hx. rewrite list_elem_of_filter. tauto.
Qed.

(** ** Further laws of the placement guesser *)

Lemma string_append_nil_r (s : string) : (s ++ "")%string = s.
Proof.
  induction s as [|c s IH]; [reflexivity | by rewrite string_append_cons, IH].
Qed.

Lemma string_of_snoc (l : list ascii) (c : ascii) (s : string) :
  (string_of_list_ascii (l ++ [c]) ++ s)%string
  = (string_of_list_ascii l ++ String c s)%string.
Proof.
  induction l as [|a l IH]; [reflexivity|].
  simpl string_of_list_ascii. by rewrite !string_append_cons, IH.
Qed.

Lemma split_go_nonempty (sep : ascii) (s : string) (cur : list ascii) :
  split_go sep s cur <> [].
Proof.
  revert cur. induction s as [|c s IH]; intros cur; simpl; [discriminate|].
  destruct (Ascii.eqb c sep); [discriminate | apply IH].
Qed.

Lemma last_cons_nonempty (x : string) (l : list string) :
  l <> [] -> List.last (x :: l) "" = List.last l "".
Proof. by destruct l. Qed.

(** The last segment of a text without dot is the text, behind what was
    collected before it. *)
Lemma pop_split_no_dot (s : string) (cur : list ascii) :
  no_dot s = true ->
  pop (split_go "."%char s cur) = (string_of_list_ascii (rev cur) ++ s)%string.
Proof.
  revert cur. induction s as [|c s IH]; intros cur Hs.
  - unfold pop. simpl split_go. simpl List.last. by rewrite string_append_nil_r.
  - simpl in Hs. apply andb_prop in Hs as [Hc Hs]. apply negb_true_iff in Hc.
    simpl split_go. rewrite Hc, IH by assumption. simpl rev. apply string_of_snoc.
Qed.

(** Whatever precedes a dot does not reach the last segment. *)
Lemma pop_split_after_dot (stem rest : string) (cur : list ascii) :
  pop (split_go "."%char (stem ++ String "."%char rest) cur)
  = pop (split_go "."%char rest []).
Proof.
  revert cur. induction stem as [|c stem IH]; intros cur.
  - unfold pop. change ("" ++ String "."%char rest)%string with (String "."%char rest).
    simpl split_go. apply last_cons_nonempty, split_go_nonempty.
  - rewrite string_append_cons. simpl split_go. destruct (Ascii.eqb c "."%char).
    + unfold pop. rewrite last_cons_nonempty by apply split_go_nonempty. apply IH.
    + apply IH.
Qed.

Lemma file_extension_last_dot (fileName ext : string) :
  (fileName = ext \/ exists stem, fileName = (stem ++ "." ++ ext)%string) ->
  no_dot ext = true ->
  file_extension fileName = ("." ++ ext)%string.
Proof.
  intros Hname Hext. unfold file_extension, split. f_equal.
  destruct Hname as [-> | (stem & ->)].
  - by rewrite pop_split_no_dot.
  - change ("." ++ ext)%string with (String "."%char ext).
    by rewrite pop_split_after_dot, pop_split_no_dot.
Qed.

Lemma guess_by_extension_skip (ext : string) (d : IFileType) :
  extension_candidate ext d = false -> guess_by_extension ext d = ret None.
Proof.
  unfold extension_candidate, guess_by_extension.
  rewrite detect_default_scope.
  replace (fileExtensions (default empty_detect (detect d)))
    with (detect d ≫= fileExtensions) by (by destruct (detect d)).
  destruct (detect d ≫= scope) as [sc|]; [|reflexivity].
  destruct (truthy_one_or_many (Some sc)); [|reflexivity].
  simpl. by intros ->.
Qed.

Lemma guess_by_extension_candidate (ext : string) (d : IFileType) :
  extension_candidate ext d = true ->
  exists sc, detect d ≫= scope = Some sc
             /\ guess_by_extension ext d
                = let* startPath := getStartPath sc in ret (Some startPath).
Proof.
  unfold extension_candidate, guess_by_extension.
  rewrite detect_default_scope.
  replace (fileExtensions (default empty_detect (detect d)))
    with (detect d ≫= fileExtensions) by (by destruct (detect d)).
  destruct (detect d ≫= scope) as [sc|]; [|discriminate].
  intros Hc. apply andb_prop in Hc as [Hsc Hext]. rewrite Hsc, Hext.
  exists sc. auto.
Qed.

Lemma guess_by_extension_hit (ext : string) (d : IFileType) (s : string) :
  extension_candidate ext d = true -> first_scope_entry d = Some s ->
  guess_by_extension ext d = ret (Some (normalized s)).
Proof.
  intros Hc Hs. destruct (guess_by_extension_candidate ext d Hc) as (sc & Hsc & ->).
  rewrite (getStartPath_first sc d s Hsc Hs). by rewrite bind_ret.
Qed.

Lemma guessFolder_phase1 (this : FileType) (fileHandle : FileHandle) :
  guessFolder this fileHandle =
    let* guess := for_of (fileTypes this)
                    (guess_by_extension (file_extension (name fileHandle))) in
    match guess with
    | Some startPath => ret (Some startPath)
    | None =>
        if negb (endsWith (name fileHandle) ".json") then ret None
        else
          let* file := lift (getFile fileHandle) in
          let* parsed :=
            try_catch
              (let* content := lift (text file) in
               match parse content with
               | Some json => ret (Some json)
               | None => throw JsSyntaxError
               end)
              (ret None) in
          match parsed with
          | None => ret None
          | Some json => for_of (fileTypes this) (guess_by_content json)
          end
    end.
Proof. reflexivity. Qed.

(** X15. Phase 1 of [guessFolder] goes by the part of the file name behind
    its last dot, or by the whole name when it has no dot: the first
    definition with a declared scope whose [fileExtensions] hold that
    extension decides, and its first scope entry, ending with [/], is the
    guess. The file itself is not read. *)
Theorem guess_by_file_name (this : FileType) (fileHandle : FileHandle) (ext : string)
    (pre : list IFileType) (d : IFileType) (post : list IFileType) (s : string) :
  (name fileHandle = ext
   \/ exists stem, name fileHandle = (stem ++ "." ++ ext)%string) ->
  no_dot ext = true ->
  fileTypes this = pre ++ d :: post ->
  Forall (fun x => extension_candidate ("." ++ ext) x = false) pre ->
  extension_candidate ("." ++ ext) d = true ->
  first_scope_entry d = Some s ->
  guessFolder this fileHandle = ret (Some (normalized s)).
Proof.
  intros Hname Hext Hseq Hpre Hd Hs.
  rewrite guessFolder_phase1, (file_extension_last_dot _ ext Hname Hext), Hseq.
  rewrite for_of_skip_prefix
    by (eapply Forall_impl; [exact Hpre|]; intros x; apply guess_by_extension_skip).
  rewrite (for_of_return d post _ (normalized s))
    by (by apply guess_by_extension_hit).
  by rewrite (bind_ret (Some (normalized s))).
Qed.

(** X16. When no definition is a candidate for the extension of the file
    name and the name does not end in [.json], [guessFolder] answers [null]
    without reading the file. *)
Theorem guess_gives_up_without_reading (this : FileType) (fileHandle : FileHandle) :
  endsWith (name fileHandle) ".json" = false ->
  Forall (fun x => extension_candidate (file_extension (name fileHandle)) x = false)
         (fileTypes this) ->
  guessFolder this fileHandle = ret None.
Proof.
  intros Hname Hall. rewrite guessFolder_phase1.
  rewrite for_of_all_continue
    by (eapply Forall_impl; [exact Hall|]; intros x; apply guess_by_extension_skip).
  by rewrite (bind_ret (@None string)), Hname.
Qed.

(** X17. In phase 2 the two reads fail differently: when [getFile()]
    rejects, [guessFolder] rejects with the same error; when [text()]
    rejects, the failure is caught like a parse error and the answer is
    [null]. *)
Theorem guess_read_failures (this : FileType) (fileHandle : FileHandle) :
  endsWith (name fileHandle) ".json" = true ->
  Forall (fun x => extension_candidate (file_extension (name fileHandle)) x = false)
         (fileTypes this) ->
  (forall e, getFile fileHandle = Throw e -> guessFolder this fileHandle = throw e)
  /\ (forall file e, getFile fileHandle = Normal file -> text file = Throw e ->
        guessFolder this fileHandle = ret None).
Proof.
  intros Hname Hall. rewrite guessFolder_phase1.
  rewrite for_of_all_continue
    by (eapply Forall_impl; [exact Hall|]; intros x; apply guess_by_extension_skip).
  rewrite (bind_ret (@None string)), Hname. simpl negb. cbv iota. split.
  - by intros e ->.
  - intros file e -> Htext. rewrite lift_normal, (bind_ret file), Htext.
    reflexivity.
Qed.

Lemma length_snoc_slash (s : string) :
  String.length (s ++ "/") = S (String.length s).
Proof.
  induction s as [|c s IH]; [reflexivity|].
  rewrite string_append_cons. simpl. by rewrite IH.
Qed.

Lemma substring_snoc_slash (s : string) :
  substring (String.length s) 1 (s ++ "/") = "/".
Proof.
  induction s as [|c s IH]; [reflexivity|].
  rewrite string_append_cons. exact IH.
Qed.

Lemma endsWith_snoc_slash (s : string) : endsWith (s ++ "/") "/" = true.
Proof.
  unfold endsWith. rewrite length_snoc_slash. simpl. rewrite Nat.sub_0_r.
  by rewrite substring_snoc_slash.
Qed.

Lemma getStartPath_slash (sc : OneOrMany string) (folder : string) :
  completion (getStartPath sc) = Normal folder -> endsWith folder "/" = true.
Proof.
  assert (Hnorm : forall s,
             endsWith (if negb (endsWith s "/") then (s ++ "/")%string else s) "/" = true).
  { intros s. destruct (endsWith s "/") eqn:Hs; simpl; [exact Hs|].
    apply endsWith_snoc_slash. }
  unfold getStartPath. destruct sc as [s|[|s l]]; simpl; try discriminate;
    intros [= <-]; apply Hnorm.
Qed.

Lemma bind_normal_inv {A B} (m : Eff A) (k : A -> Eff B) (v : B) :
  completion (bind m k) = Normal v ->
  exists a, completion m = Normal a /\ completion (k a) = Normal v.
Proof.
  unfold bind. destruct (completion m) as [a|e]; simpl; [eauto | discriminate].
Qed.

Lemma guess_body_slash (sc : OneOrMany string) (folder : string) :
  completion (let* startPath := getStartPath sc in ret (Some startPath))
  = Normal (Some folder) ->
  endsWith folder "/" = true.
Proof.
  intros H. apply bind_normal_inv in H as (sp & Hsp & Hret).
  injection Hret as <-. by apply (getStartPath_slash sc).
Qed.

Lemma guess_by_extension_slash (ext : string) (d : IFileType) (folder : string) :
  completion (guess_by_extension ext d) = Normal (Some folder) ->
  endsWith folder "/" = true.
Proof.
  destruct (extension_candidate ext d) eqn:Hc.
  - destruct (guess_by_extension_candidate ext d Hc) as (sc & _ & ->).
    apply guess_body_slash.
  - by rewrite guess_by_extension_skip.
Qed.

Lemma guess_by_content_slash (json : JSON) (d : IFileType) (folder : string) :
  completion (guess_by_content json d) = Normal (Some folder) ->
  endsWith folder "/" = true.
Proof.
  destruct (content_candidate d) eqn:Hc; [|by rewrite guess_by_content_skip].
  unfold guess_by_content.
  destruct (match type d with Some KindJson => false | Some _ => true | None => false end);
    [discriminate|].
  destruct (scope (default empty_detect (detect d))) as [sc|]; [|discriminate].
  destruct (fileContent (default empty_detect (detect d))); [|discriminate].
  destruct (negb (truthy_one_or_many (Some sc))); [discriminate|].
  apply guess_body_slash.
Qed.

(** X18. Every folder that [guessFolder] proposes ends with the path
    separator, whichever phase produced it. *)
Theorem guess_ends_with_separator (this : FileType) (fileHandle : FileHandle)
    (folder : string) :
  completion (guessFolder this fileHandle) = Normal (Some folder) ->
  endsWith folder "/" = true.
Proof.
  rewrite guessFolder_phase1. intros H.
  apply bind_normal_inv in H as ([sp|] & Hphase1 & H).
  - injection H as <-. apply for_of_return_inv in Hphase1 as (x & _ & Hx).
    exact (guess_by_extension_slash _ x _ Hx).
  - destruct (negb (endsWith (name fileHandle) ".json")); [discriminate|].
    apply bind_normal_inv in H as (file & _ & H).
    apply bind_normal_inv in H as ([json|] & _ & H); [|discriminate].
    apply for_of_return_inv in H as (x & _ & Hx).
    exact (guess_by_content_slash json x _ Hx).
Qed.

Lemma for_of_all_ret {A B} (l : list A) (body : A -> Eff (option B)) :
  Forall (fun x => exists r, body x = ret r) l -> exists r, for_of l body = ret r.
Proof.
  induction 1 as [|x l (r & Hx) _ (rl & IH)]; [by exists None|].
  simpl. rewrite Hx, (bind_ret r). destruct r as [v|]; eauto.
Qed.

Lemma getStartPath_well_scoped (sc : OneOrMany string) :
  sc <> Many [] -> exists folder, getStartPath sc = ret folder.
Proof.
  intros Hsc. unfold getStartPath.
  destruct sc as [s|[|s l]]; [|by destruct Hsc|]; rewrite bind_ret; eauto.
Qed.

Lemma guess_body_well_scoped (sc : OneOrMany string) :
  sc <> Many [] ->
  exists r : option string,
    (let* startPath := getStartPath sc in ret (Some startPath)) = ret r.
Proof.
  intros Hsc. destruct (getStartPath_well_scoped sc Hsc) as (folder & ->).
  rewrite (bind_ret folder). eauto.
Qed.

Lemma well_scoped_scope (d : IFileType) (sc : OneOrMany string) :
  well_scoped d = true -> detect d ≫= scope = Some sc -> sc <> Many [].
Proof. unfold well_scoped. intros Hw Hsc ->. rewrite Hsc in Hw. discriminate. Qed.

(** X19. When no definition has an empty array as scope and [getFile()]
    settles, [guessFolder] does not raise: it answers with a folder or with
    [null], whatever the file name and the content are. *)
Theorem guess_never_raises (this : FileType) (fileHandle : FileHandle) (file : File) :
  Forall (fun x => well_scoped x = true) (fileTypes this) ->
  getFile fileHandle = Normal file ->
  exists r, guessFolder this fileHandle = ret r.
Proof.
  intros Hall Hfile. rewrite guessFolder_phase1.
  assert (Hphase1 : exists r, for_of (fileTypes this)
                      (guess_by_extension (file_extension (name fileHandle))) = ret r).
  { apply for_of_all_ret. eapply Forall_impl; [exact Hall|]. intros x Hw. simpl.
    destruct (extension_candidate (file_extension (name fileHandle)) x) eqn:Hc.
    - destruct (guess_by_extension_candidate _ x Hc) as (sc & Hsc & ->).
      apply guess_body_well_scoped. by apply (well_scoped_scope x).
    - rewrite guess_by_extension_skip by assumption. eauto. }
  assert (Hphase2 : forall json,
             exists r, for_of (fileTypes this) (guess_by_content json) = ret r).
  { intros json. apply for_of_all_ret. eapply Forall_impl; [exact Hall|].
    intros x Hw. simpl.
    destruct (content_candidate x) eqn:Hc;
      [|rewrite guess_by_content_skip by assumption; eauto].
    unfold guess_by_content.
    destruct (match type x with Some KindJson => false | Some _ => true | None => false end);
      [eauto|].
    rewrite detect_default_scope.
    destruct (detect x ≫= scope) as [sc|] eqn:Hsc; [|eauto].
    destruct (fileContent (default empty_detect (detect x))); [|eauto].
    destruct (negb (truthy_one_or_many (Some sc))); [eauto|].
    apply guess_body_well_scoped. by apply (well_scoped_scope x). }
  destruct Hphase1 as (r1 & ->). rewrite (bind_ret r1).
  destruct r1 as [sp|]; [eauto|].
  destruct (negb (endsWith (name fileHandle) ".json")); [eauto|].
  rewrite Hfile, lift_normal, (bind_ret file).
  destruct (text file) as [content|e].
  - rewrite lift_normal, (bind_ret content).
    destruct (parse content) as [json|].
    + rewrite try_catch_ret, (bind_ret (Some json)). apply Hphase2.
    + rewrite try_catch_throw, (bind_ret (@None JSON)). eauto.
  - exists None. reflexivity.
Qed.

(** X20. A definition whose scope is an empty array and whose
    [fileExtensions] hold the extension of the file name makes
    [guessFolder] raise a [TypeError] when phase 1 reaches it: there is no
    first scope entry to normalize. *)
Theorem guess_empty_scope_raises (this : FileType) (fileHandle : FileHandle)
    (pre : list IFileType) (d : IFileType) (post : list IFileType) :
  fileTypes this = pre ++ d :: post ->
  Forall (fun x => extension_candidate (file_extension (name fileHandle)) x = false) pre ->
  extension_candidate (file_extension (name fileHandle)) d = true ->
  detect d ≫= scope = Some (Many []) ->
  guessFolder this fileHandle = throw JsTypeError.
Proof.
  intros Hseq Hpre Hd Hscope. rewrite guessFolder_phase1, Hseq.
  rewrite for_of_skip_prefix
    by (eapply Forall_impl; [exact Hpre|]; intros x; apply guess_by_extension_skip).
  rewrite (for_of_throw d post _ [] JsTypeError); [reflexivity|].
  destruct (guess_by_extension_candidate _ d Hd) as (sc & Hsc & ->).
  rewrite Hscope in Hsc. by injection Hsc as <-.
Qed.

Lemma for_of_ext_in {A B} (l : list A) (body1 body2 : A -> Eff (option B)) :
  Forall (fun x => body1 x = body2 x) l -> for_of l body1 = for_of l body2.
Proof.
  induction 1 as [|x l Hx _ IH]; [reflexivity|]. simpl. by rewrite Hx, IH.
Qed.

(** X21. A requested id that no definition of the sequence carries has no
    effect: [get(path, id)] is then [get(path)]. *)
Theorem get_unknown_id (this : FileType) (filePath : option string) (sid : string) :
  ~ In sid (getIds this) ->
  get this filePath (Some sid) = get this filePath None.
Proof.
  rewrite getIds_map, !get_scan. intros Hid. apply for_of_ext_in.
  apply Forall_forall. intros d Hd. apply get_step_other_id.
  intros Heq. apply Hid. rewrite <- Heq. apply in_map.
  by apply list_elem_of_In.
Qed.

End Collaborators.

(** X22. A definition with a scope is decided by its scope alone: its
    matcher is never handed to the glob matcher, so in a registry whose
    definitions all declare a scope the result of [get] is the same for any
    glob matcher. *)
Theorem scope_shadows_matcher (extname : string -> string)
    (isMatch1 isMatch2 : string -> list string -> bool)
    (this : FileType) (filePath searchFileType : option string) :
  (forall d, hasScope d = true ->
     get_step extname isMatch1 this filePath searchFileType d
     = get_step extname isMatch2 this filePath searchFileType d)
  /\ (Forall (fun d => hasScope d = true) (fileTypes this) ->
      get extname isMatch1 this filePath searchFileType
      = get extname isMatch2 this filePath searchFileType).
Proof.
  assert (Hstep : forall d, hasScope d = true ->
     get_step extname isMatch1 this filePath searchFileType d
     = get_step extname isMatch2 this filePath searchFileType d).
  { intros d Hs. rewrite !get_step_spec. unfold structurally_matches. by rewrite Hs. }
  split; [exact Hstep|].
  intros Hall. rewrite !get_scan. apply for_of_ext_in.
  eapply Forall_impl; [exact Hall|]. exact Hstep.
Qed.

(** ** The laws on the sample registries *)

Example posix_extname_json : posix_extname "packs/behavior/entities/x.json" = ".json".
Proof. evaluate. Qed.

Example posix_extname_none : posix_extname "packs/behavior/entities/x" = "".
Proof. evaluate. Qed.

Example posix_extname_dotfile : posix_extname "packs/.gitignore" = "".
Proof. evaluate. Qed.

Example posix_extname_last_dot : posix_extname "a.b/c.tar.gz" = ".gz".
Proof. evaluate. Qed.

(** Example 1 of the specification. *)
Example get_scope_and_extension :
  get posix_extname literal_isMatch (sample_state [def_a])
      (Some "packs/behavior/entities/x.json") None = ret (Some def_a)
  /\ get posix_extname literal_isMatch (sample_state [def_a])
         (Some "packs/behavior/entities/x.txt") None = ret None.
Proof. split; evaluate. Qed.

(** Example 3 of the specification. *)
Example guessFolder_loot_table :
  guessFolder string sample_parse (sample_state [def_loot])
              (sample_handle "loot_table.json" "{pools:[]}")
  = ret (Some "packs/behavior/loot_tables/").
Proof. evaluate. Qed.

(** Example 4 of the specification. *)
Example getId_unregistered :
  getId posix_extname literal_isMatch (sample_state [def_a; def_b])
        "unregistered/path/file.xyz" = ret "unknown".
Proof. evaluate. Qed.

(** Example 5 of the specification. *)
Example isJsonFile_fallback_and_language :
  isJsonFile posix_extname literal_isMatch (sample_state []) "a.json" = ret true
  /\ isJsonFile posix_extname literal_isMatch (sample_state [def_plain])
                "docs/notes.json" = ret false.
Proof. split; evaluate. Qed.

(** C1, as stated, fails: [def_a] and [def_c] both structurally match the
    path, but [def_bad] stands in front of them and the scan aborts there
    instead of returning [def_a]. *)
Lemma priority_law_counterexample :
  let this := sample_state [def_bad; def_a; def_c] in
  let p := "packs/behavior/entities/x.json" in
  fileTypes this = [def_bad] ++ def_a :: [] ++ def_c :: []
  /\ structurally_matches posix_extname literal_isMatch this p def_a = true
  /\ structurally_matches posix_extname literal_isMatch this p def_c = true
  /\ get posix_extname literal_isMatch this (Some p) None = invalid_definition def_bad
  /\ get posix_extname literal_isMatch this (Some p) None <> ret (Some def_a).
Proof. cbv zeta. do 4 (split; [evaluate|]). evaluate_ne. Qed.

Lemma priority_law_witness :
  let this := sample_state [def_b; def_a; def_c] in
  let p := "packs/behavior/entities/x.json" in
  fileTypes this = [def_b] ++ def_a :: [] ++ def_c :: []
  /\ structurally_matches posix_extname literal_isMatch this p def_a = true
  /\ structurally_matches posix_extname literal_isMatch this p def_c = true
  /\ get posix_extname literal_isMatch this (Some p) None = ret (Some def_a).
Proof.
  cbv zeta. do 3 (split; [evaluate|]).
  apply (proj2 (priority_law posix_extname literal_isMatch
                  (sample_state [def_b; def_a; def_c])
                  "packs/behavior/entities/x.json"
                  [def_b] def_a [] def_c [] eq_refl
                  ltac:(evaluate) ltac:(evaluate))).
  repeat constructor; evaluate.
Defined.

(** C2, as stated, fails: the path has no extension, the empty extension is
    not in the list of [def_a], and [def_a] is returned all the same. *)
Lemma extension_filter_law_counterexample :
  let this := sample_state [def_a] in
  let p := "packs/behavior/entities/x" in
  detect def_a ≫= fileExtensions = Some [".json"]
  /\ ~ In (posix_extname p) [".json"]
  /\ get posix_extname literal_isMatch this (Some p) None = ret (Some def_a).
Proof.
  cbv zeta. split; [evaluate|]. split; [|evaluate].
  vm_compute. intros [H|[]]. discriminate H.
Qed.

Lemma extension_filter_law_witness :
  let this := sample_state [def_a] in
  let p := "packs/behavior/entities/x.txt" in
  detect def_a ≫= fileExtensions = Some [".json"]
  /\ posix_extname p <> ""
  /\ ~ In (posix_extname p) [".json"]
  /\ get_step posix_extname literal_isMatch this (Some p) None def_a = ret None
  /\ completion (get posix_extname literal_isMatch this (Some p) None)
     <> Normal (Some def_a).
Proof.
  cbv zeta.
  assert (H1 : detect def_a ≫= fileExtensions = Some [".json"]) by reflexivity.
  assert (H2 : posix_extname "packs/behavior/entities/x.txt" <> "")
    by (vm_compute; discriminate).
  assert (H3 : ~ In (posix_extname "packs/behavior/entities/x.txt") [".json"])
    by (vm_compute; intros [H|[]]; discriminate H).
  split; [exact H1|]. split; [exact H2|]. split; [exact H3|].
  exact (extension_filter_law posix_extname literal_isMatch (sample_state [def_a])
           "packs/behavior/entities/x.txt" def_a [".json"] H1 H2 H3).
Defined.



Lemma fatal_config_law_witness :
  let this := sample_state [def_a; def_bad; def_c] in
  let p := "packs/resource/textures/t.png" in
  fileTypes this = [def_a] ++ def_bad :: [def_c]
  /\ truthy_string p = true
  /\ hasScope def_bad = false
  /\ hasMatcher def_bad = false
  /\ structurally_matches posix_extname literal_isMatch this p def_c = true
  /\ get posix_extname literal_isMatch this (Some p) None
     = mkEff [def_bad] (Throw (JsError invalid_definition_message)).
Proof.
  cbv zeta. do 5 (split; [evaluate|]).
  apply (fatal_config_law posix_extname literal_isMatch
           (sample_state [def_a; def_bad; def_c]) "packs/resource/textures/t.png"
           None [def_a] def_bad [def_c] eq_refl);
    [evaluate | repeat constructor; evaluate | discriminate
     | evaluate | evaluate | evaluate].
Defined.

Lemma template_expansion_law_witness :
  let this := sample_state [] in
  let packTypes := ["behaviorPack"; "resourcePack"] in
  let matchers := ["entities"; "items"; "loot_tables"] in
  projectConfig this = Some sample_config
  /\ packTypes <> []
  /\ prefixMatchers this packTypes matchers
     = ["behaviorPack/entities"; "behaviorPack/items"; "behaviorPack/loot_tables";
        "resourcePack/entities"; "resourcePack/items"; "resourcePack/loot_tables"]
  /\ prefixMatchers this packTypes matchers !! (1 * length matchers + 2)
     = Some "resourcePack/loot_tables"
  /\ prefixMatchers this [] matchers = matchers
  /\ prefixMatchers (mkState None [] []) packTypes matchers = [].
Proof.
  cbv zeta.
  pose proof (template_expansion_law (sample_state [])
                ["behaviorPack"; "resourcePack"]
                ["entities"; "items"; "loot_tables"]) as [_ Hsome].
  pose proof (template_expansion_law (sample_state []) []
                ["entities"; "items"; "loot_tables"]) as [_ Hempty].
  pose proof (template_expansion_law (mkState None [] [])
                ["behaviorPack"; "resourcePack"]
                ["entities"; "items"; "loot_tables"]) as [Hnone _].
  destruct (Hsome sample_config eq_refl) as [_ Hcross].
  destruct (Hempty sample_config eq_refl) as [Hflat _].
  assert (Hne : ["behaviorPack"; "resourcePack"] <> []) by discriminate.
  destruct (Hcross Hne) as (Heq & _ & Hindex).
  split; [reflexivity|]. split; [exact Hne|]. split; [|split; [|split]].
  - rewrite Heq. evaluate.
  - apply (Hindex 1 2 "resourcePack" "loot_tables"); reflexivity.
  - destruct (Hflat eq_refl) as [Hmap _]. rewrite Hmap. evaluate.
  - apply Hnone. reflexivity.
Defined.

Lemma disposal_law_witness :
  let this := mkState None [1; 2]%positive [] in
  let d := 3%positive in
  let added := snd (addPluginFileType d this) in
  let disposed := snd (fst (addPluginFileType d this) added) in
  2%positive <> d
  /\ getPluginFileTypes added = [1; 2; 3]%positive
  /\ (2%positive ∈ getPluginFileTypes disposed <-> 2%positive ∈ getPluginFileTypes this)
  /\ (d ∉ getPluginFileTypes disposed).
Proof.
  cbv zeta.
  pose proof (disposal_law (mkState None [1; 2]%positive []) 3%positive) as Hlaw.
  cbv zeta in Hlaw. destruct Hlaw as (_ & _ & Hgone & Hothers & _).
  assert (Hne : 2%positive <> 3%positive) by discriminate.
  split; [exact Hne|]. split; [evaluate|]. split; [|exact Hgone].
  exact (proj2 (Hothers 2%positive Hne)).
Defined.

Lemma placement_guess_content_law_witness :
  let this := mkState None [] [def_bad; def_loot] in
  let fileHandle := sample_handle "loot_table.json" "{pools:[]}" in
  let unreadable := sample_handle "loot_table.json" "pools" in
  endsWith (name fileHandle) ".json" = true
  /\ sample_parse "{pools:[]}" = Some "{pools:[]}"
  /\ sample_parse "pools" = None
  /\ content_candidate def_bad = false
  /\ content_candidate def_loot = true
  /\ first_scope_entry def_loot = Some "packs/behavior/loot_tables"
  /\ guessFolder string sample_parse this fileHandle
     = ret (Some "packs/behavior/loot_tables/")
  /\ guessFolder string sample_parse this unreadable = ret None.
Proof.
  cbv zeta. do 6 (split; [evaluate|]). split.
  - destruct (placement_guess_content_law string sample_parse
                (mkState None [] [def_bad; def_loot])
                (sample_handle "loot_table.json" "{pools:[]}")
                (mkFile (Normal "{pools:[]}")) "{pools:[]}"
                ltac:(evaluate) ltac:(evaluate) eq_refl eq_refl) as [_ Hparsed].
    destruct (Hparsed "{pools:[]}" ltac:(evaluate)) as [Hfirst _].
    apply (Hfirst [def_bad] def_loot [] "packs/behavior/loot_tables");
      [reflexivity | repeat constructor; evaluate | evaluate | evaluate].
  - destruct (placement_guess_content_law string sample_parse
                (mkState None [] [def_bad; def_loot])
                (sample_handle "loot_table.json" "pools")
                (mkFile (Normal "pools")) "pools"
                ltac:(evaluate) ltac:(evaluate) eq_refl eq_refl) as [Hfail _].
    apply Hfail. evaluate.
Defined.

Lemma placement_guess_empty_scope_defect_witness :
  let this := mkState None [] [def_bad; def_hollow_content; def_loot] in
  let fileHandle := sample_handle "loot_table.json" "{pools:[]}" in
  endsWith (name fileHandle) ".json" = true
  /\ sample_parse "{pools:[]}" = Some "{pools:[]}"
  /\ fileTypes this = [def_bad] ++ def_hollow_content :: [def_loot]
  /\ content_candidate def_bad = false
  /\ content_candidate def_hollow_content = true
  /\ detect def_hollow_content ≫= scope = Some (Many [])
  /\ guessFolder string sample_parse this fileHandle = throw JsTypeError.
Proof.
  cbv zeta. do 6 (split; [evaluate|]).
  apply (placement_guess_empty_scope_defect string sample_parse
           (mkState None [] [def_bad; def_hollow_content; def_loot])
           (sample_handle "loot_table.json" "{pools:[]}")
           (mkFile (Normal "{pools:[]}")) "{pools:[]}" "{pools:[]}"
           [def_bad] def_hollow_content [def_loot]);
    [evaluate | evaluate | reflexivity | reflexivity | evaluate | reflexivity
     | repeat constructor; evaluate | evaluate | reflexivity].
Defined.

Lemma getId_sentinel_law_witness :
  let this := sample_state [def_a; def_b] in
  Forall (fun x =>
            structurally_matches posix_extname literal_isMatch this
              "unregistered/path/file.xyz" x = false
            /\ aborts_scan posix_extname "unregistered/path/file.xyz" x = false)
         (fileTypes this)
  /\ getId posix_extname literal_isMatch this "unregistered/path/file.xyz"
     = ret "unknown"
  /\ getId posix_extname literal_isMatch this "packs/resource/textures/t.png"
     = ret (id def_b).
Proof.
  cbv zeta.
  assert (Hall : Forall (fun x =>
            structurally_matches posix_extname literal_isMatch
              (sample_state [def_a; def_b]) "unregistered/path/file.xyz" x = false
            /\ aborts_scan posix_extname "unregistered/path/file.xyz" x = false)
         (fileTypes (sample_state [def_a; def_b])))
    by (repeat constructor; evaluate).
  split; [exact Hall|].
  destruct (getId_sentinel_law posix_extname literal_isMatch
              (sample_state [def_a; def_b]) "unregistered/path/file.xyz")
    as (_ & _ & Hunmatched & _).
  destruct (getId_sentinel_law posix_extname literal_isMatch
              (sample_state [def_a; def_b]) "packs/resource/textures/t.png")
    as (Hfound & _).
  split; [exact (Hunmatched Hall)|].
  apply Hfound. evaluate.
Defined.

(** C10, as stated, fails: [def_blank] is resolved and declares
    [meta.language], the empty string, which is not [json]; yet the answer
    is [true], by the suffix of the path. *)
Lemma isJsonFile_law_counterexample :
  let this := sample_state [def_blank] in
  let p := "docs/notes.json" in
  get posix_extname literal_isMatch this (Some p) None = ret (Some def_blank)
  /\ (Some def_blank ≫= meta) ≫= language = Some ""
  /\ "" <> "json"
  /\ isJsonFile posix_extname literal_isMatch this p = ret true.
Proof.
  cbv zeta. split; [evaluate|]. split; [reflexivity|]. split; [discriminate | evaluate].
Qed.

Lemma isJsonFile_law_witness :
  let this := sample_state [def_plain; def_blank] in
  get posix_extname literal_isMatch this (Some "docs/notes.json") None
  = ret (Some def_plain)
  /\ "plaintext" <> ""
  /\ (exists b : bool,
        isJsonFile posix_extname literal_isMatch this "docs/notes.json" = ret b
        /\ (b = true <-> "plaintext" = "json"))
  /\ isJsonFile posix_extname literal_isMatch this "docs/notes.json" = ret false
  /\ get posix_extname literal_isMatch this (Some "textures/a.png") None = ret None
  /\ (exists b : bool,
        isJsonFile posix_extname literal_isMatch this "textures/a.png" = ret b
        /\ (b = true <-> exists stem, "textures/a.png" = (stem ++ ".json")%string))
  /\ isJsonFile posix_extname literal_isMatch this "textures/a.png" = ret false
  /\ isJsonFile posix_extname literal_isMatch this "a.json" = ret true.
Proof.
  cbv zeta.
  assert (Hresolved : get posix_extname literal_isMatch
                        (sample_state [def_plain; def_blank])
                        (Some "docs/notes.json") None = ret (Some def_plain))
    by evaluate.
  assert (Hnothing : get posix_extname literal_isMatch
                       (sample_state [def_plain; def_blank])
                       (Some "textures/a.png") None = ret None)
    by evaluate.
  assert (Hlanguage : "plaintext" <> "") by discriminate.
  split; [exact Hresolved|]. split; [exact Hlanguage|]. split.
  - exact (proj1 (isJsonFile_law posix_extname literal_isMatch
                    (sample_state [def_plain; def_blank]) "docs/notes.json"
                    (Some def_plain) Hresolved)
                 "plaintext" eq_refl Hlanguage).
  - split; [evaluate|]. split; [exact Hnothing|]. split; [|split; evaluate].
    exact (proj2 (isJsonFile_law posix_extname literal_isMatch
                    (sample_state [def_plain; def_blank]) "textures/a.png"
                    None Hnothing)
                 (or_introl eq_refl)).
Defined.

(** ** The further laws on the sample registries *)

Lemma get_nothing_requested_witness :
  let this := sample_state [def_bad; def_a] in
  truthy_path (Some "") = false
  /\ get posix_extname literal_isMatch this (Some "") None = ret None.
Proof.
  cbv zeta. split; [reflexivity|].
  exact (get_nothing_requested posix_extname literal_isMatch
           (sample_state [def_bad; def_a]) (Some "") eq_refl).
Defined.

Lemma get_by_id_only_witness :
  let this := sample_state [def_bad; def_a; def_b] in
  truthy_path None = false
  /\ get posix_extname literal_isMatch this None (Some "b") = ret (Some def_b)
  /\ In "b" (getIds this).
Proof.
  cbv zeta. split; [reflexivity|].
  destruct (get_by_id_only posix_extname literal_isMatch
              (sample_state [def_bad; def_a; def_b]) None "b" eq_refl)
    as [Hget Hlisted].
  split; [rewrite Hget; evaluate|].
  apply Hlisted. exists def_b. rewrite Hget. evaluate.
Defined.

Lemma get_returns_member_witness :
  let this := sample_state [def_b; def_a] in
  let p := "packs/behavior/entities/x.json" in
  completion (get posix_extname literal_isMatch this (Some p) None)
  = Normal (Some def_a)
  /\ In def_a (fileTypes this)
  /\ (None = Some (id def_a)
      \/ exists q, Some p = Some q
           /\ structurally_matches posix_extname literal_isMatch this q def_a = true).
Proof.
  cbv zeta.
  assert (Hget : completion (get posix_extname literal_isMatch
                   (sample_state [def_b; def_a])
                   (Some "packs/behavior/entities/x.json") None)
                 = Normal (Some def_a)) by evaluate.
  split; [exact Hget|].
  exact (get_returns_member posix_extname literal_isMatch
           (sample_state [def_b; def_a]) (Some "packs/behavior/entities/x.json")
           None def_a Hget).
Defined.

Lemma get_undefined_iff_witness :
  let this := sample_state [def_a; def_b] in
  let p := "unregistered/path/file.xyz" in
  Forall (fun x => structurally_matches posix_extname literal_isMatch this p x = false
                   /\ aborts_scan posix_extname p x = false) (fileTypes this)
  /\ get posix_extname literal_isMatch this (Some p) None = ret None.
Proof.
  cbv zeta.
  assert (Hall : Forall (fun x =>
            structurally_matches posix_extname literal_isMatch
              (sample_state [def_a; def_b]) "unregistered/path/file.xyz" x = false
            /\ aborts_scan posix_extname "unregistered/path/file.xyz" x = false)
          (fileTypes (sample_state [def_a; def_b])))
    by (repeat constructor; evaluate).
  split; [exact Hall|].
  exact (proj2 (get_undefined_iff posix_extname literal_isMatch
                  (sample_state [def_a; def_b]) "unregistered/path/file.xyz") Hall).
Defined.

Lemma get_abort_shape_witness :
  let this := sample_state [def_a; def_bad; def_b] in
  let filePath := Some "packs/resource/textures/t.png" in
  get posix_extname literal_isMatch this filePath None
  = mkEff [def_bad] (Throw (JsError invalid_definition_message))
  /\ exists p pre d post,
      filePath = Some p /\ truthy_string p = true
      /\ fileTypes this = pre ++ d :: post
      /\ Forall (fun x => get_step posix_extname literal_isMatch this filePath None x
                          = ret None) pre
      /\ None <> Some (id d)
      /\ extension_rejected d (Some (posix_extname p)) = false
      /\ hasScope d = false /\ hasMatcher d = false
      /\ [def_bad] = [d].
Proof.
  cbv zeta.
  assert (Hget : get posix_extname literal_isMatch
                   (sample_state [def_a; def_bad; def_b])
                   (Some "packs/resource/textures/t.png") None
                 = mkEff [def_bad] (Throw (JsError invalid_definition_message)))
    by evaluate.
  split; [exact Hget|].
  exact (proj1 (get_abort_shape posix_extname literal_isMatch
                  (sample_state [def_a; def_bad; def_b])
                  (Some "packs/resource/textures/t.png") None) _ Hget).
Defined.

Lemma no_config_resolves_nothing_witness :
  let this := mkState None [] [def_a; def_m] in
  let p := "packs/behavior/entities/x.json" in
  projectConfig this = None
  /\ hasScope def_a = true
  /\ literal_isMatch p [] = false
  /\ get_step posix_extname literal_isMatch this (Some p) None def_a = ret None
  /\ completion (get posix_extname literal_isMatch this (Some p) None)
     <> Normal (Some def_a)
  /\ get posix_extname literal_isMatch (sample_state [def_a; def_m]) (Some p) None
     = ret (Some def_a).
Proof.
  cbv zeta.
  destruct (no_config_resolves_nothing posix_extname literal_isMatch
              (mkState None [] [def_a; def_m]) "packs/behavior/entities/x.json"
              eq_refl) as (Hscope & _ & Hnone).
  do 3 (split; [reflexivity|]). split; [exact (Hscope def_a eq_refl)|].
  split; [exact (Hnone eq_refl def_a) | evaluate].
Defined.

Lemma empty_scope_array_skipped_witness :
  let this := sample_state [def_hollow] in
  detect def_hollow ≫= scope = Some (Many [])
  /\ detect def_hollow ≫= matcher = Some (One "manifest.json")
  /\ get posix_extname literal_isMatch (sample_state [def_m]) (Some "manifest.json") None
     = ret (Some def_m)
  /\ hasScope def_hollow = true
  /\ get_step posix_extname literal_isMatch this (Some "manifest.json") None def_hollow
     = ret None.
Proof.
  cbv zeta. do 2 (split; [reflexivity|]). split; [evaluate|].
  exact (empty_scope_array_skipped posix_extname literal_isMatch
           (sample_state [def_hollow]) "manifest.json" def_hollow eq_refl).
Defined.

Lemma appended_definitions_law_witness :
  let this := sample_state [def_a] in
  let matched := Some "packs/behavior/entities/x.json" in
  let unmatched := Some "packs/resource/textures/t.png" in
  get posix_extname literal_isMatch this matched None <> ret None
  /\ get posix_extname literal_isMatch (append_definitions this [def_c]) matched None
     = get posix_extname literal_isMatch this matched None
  /\ get posix_extname literal_isMatch this unmatched None = ret None
  /\ get posix_extname literal_isMatch (append_definitions this [def_c]) unmatched None
     = get posix_extname literal_isMatch (sample_state [def_c]) unmatched None.
Proof.
  cbv zeta.
  assert (H1 : get posix_extname literal_isMatch (sample_state [def_a])
                 (Some "packs/behavior/entities/x.json") None <> ret None)
    by evaluate_ne.
  assert (H2 : get posix_extname literal_isMatch (sample_state [def_a])
                 (Some "packs/resource/textures/t.png") None = ret None)
    by evaluate.
  split; [exact H1|]. split; [|split; [exact H2|]].
  - exact (proj1 (appended_definitions_law posix_extname literal_isMatch
                    (sample_state [def_a]) [def_c]
                    (Some "packs/behavior/entities/x.json") None) H1).
  - exact (proj2 (appended_definitions_law posix_extname literal_isMatch
                    (sample_state [def_a]) [def_c]
                    (Some "packs/resource/textures/t.png") None) H2).
Defined.

Lemma accessors_abort_on_invalid_witness :
  let this := sample_state [def_a; def_bad; def_b] in
  let p := "packs/resource/textures/t.json" in
  fileTypes this = [def_a] ++ def_bad :: [def_b]
  /\ aborts_scan posix_extname p def_bad = true
  /\ getId posix_extname literal_isMatch this p
     = mkEff [def_bad] (Throw (JsError invalid_definition_message))
  /\ isJsonFile posix_extname literal_isMatch this p
     = mkEff [def_bad] (Throw (JsError invalid_definition_message)).
Proof.
  cbv zeta. split; [reflexivity|]. split; [evaluate|].
  apply (accessors_abort_on_invalid posix_extname literal_isMatch
           (sample_state [def_a; def_bad; def_b]) "packs/resource/textures/t.json"
           [def_a] def_bad [def_b] eq_refl);
    [repeat constructor; evaluate | evaluate].
Defined.

Lemma get_unknown_id_witness :
  let this := sample_state [def_a; def_b] in
  let filePath := Some "packs/resource/textures/t.png" in
  ~ In "zzz" (getIds this)
  /\ get posix_extname literal_isMatch this filePath (Some "zzz")
     = get posix_extname literal_isMatch this filePath None.
Proof.
  cbv zeta.
  assert (Hid : ~ In "zzz" (getIds (sample_state [def_a; def_b])))
    by (vm_compute; intros [H|[H|[]]]; discriminate H).
  split; [exact Hid|].
  exact (get_unknown_id posix_extname literal_isMatch (sample_state [def_a; def_b])
           (Some "packs/resource/textures/t.png") "zzz" Hid).
Defined.

Lemma scope_shadows_matcher_witness :
  let this := sample_state [def_b; def_hollow; def_a] in
  let filePath := Some "manifest.json" in
  Forall (fun d => hasScope d = true) (fileTypes this)
  /\ get posix_extname literal_isMatch this filePath None
     = get posix_extname (fun _ _ => true) this filePath None.
Proof.
  cbv zeta.
  assert (Hall : Forall (fun d => hasScope d = true)
                   (fileTypes (sample_state [def_b; def_hollow; def_a])))
    by (repeat constructor).
  split; [exact Hall|].
  exact (proj2 (scope_shadows_matcher posix_extname literal_isMatch (fun _ _ => true)
                  (sample_state [def_b; def_hollow; def_a]) (Some "manifest.json") None)
               Hall).
Defined.

Lemma setPluginFileTypes_replaces_witness :
  let this := mkState None [7; 8]%positive [] in
  let after := setPluginFileTypes (Some [3; 1; 2]%positive) this in
  NoDup [3; 1; 2]%positive
  /\ getPluginFileTypes after = [3; 1; 2]%positive
  /\ getPluginFileTypes (setPluginFileTypes None this) = [].
Proof.
  cbv zeta.
  assert (Hnd : NoDup [3; 1; 2]%positive)
    by (apply (bool_decide_unpack _); vm_compute; exact I).
  pose proof (setPluginFileTypes_replaces (mkState None [7; 8]%positive [])
                (Some [3; 1; 2]%positive)) as Hsome.
  pose proof (setPluginFileTypes_replaces (mkState None [7; 8]%positive []) None)
    as Hnone.
  cbv zeta in Hsome, Hnone.
  destruct Hsome as (_ & _ & Hback & _). destruct Hnone as (_ & _ & _ & Hempty).
  split; [exact Hnd|]. split; [exact (Hback _ eq_refl Hnd) | exact (Hempty eq_refl)].
Defined.

Lemma add_then_dispose_restores_witness :
  let this := mkState None [1; 2]%positive [def_a] in
  let d := 3%positive in
  let added := snd (addPluginFileType d this) in
  (d ∉ pluginFileTypes this)
  /\ getPluginFileTypes added = [1; 2; 3]%positive
  /\ snd (fst (addPluginFileType d this) added) = this.
Proof.
  cbv zeta.
  assert (Hd : 3%positive ∉ pluginFileTypes (mkState None [1; 2]%positive [def_a]))
    by (apply (bool_decide_unpack _); vm_compute; exact I).
  split; [exact Hd|].
  exact (add_then_dispose_restores (mkState None [1; 2]%positive [def_a]) 3%positive Hd).
Defined.

Lemma add_existing_then_dispose_witness :
  let this := mkState None [1; 2]%positive [def_a] in
  let d := 2%positive in
  (d ∈ pluginFileTypes this)
  /\ snd (addPluginFileType d this) = this
  /\ getPluginFileTypes (snd (fst (addPluginFileType d this) this)) = [1%positive].
Proof.
  cbv zeta.
  assert (Hd : 2%positive ∈ pluginFileTypes (mkState None [1; 2]%positive [def_a]))
    by (apply (bool_decide_unpack _); vm_compute; exact I).
  split; [exact Hd|].
  destruct (add_existing_then_dispose (mkState None [1; 2]%positive [def_a])
              2%positive Hd) as (Hsame & _ & _).
  split; [exact Hsame | evaluate].
Defined.

Lemma disposer_any_time_witness :
  let this := mkState None [1; 2]%positive [def_a] in
  let d := 3%positive in
  let disposer := fst (addPluginFileType d this) in
  let later := setPluginFileTypes None (snd (addPluginFileType d this)) in
  (d ∉ pluginFileTypes later)
  /\ fst (disposer later) = false
  /\ snd (disposer later) = later.
Proof.
  cbv zeta.
  pose proof (disposer_any_time (mkState None [1; 2]%positive [def_a])
                (setPluginFileTypes None
                   (snd (addPluginFileType 3%positive
                           (mkState None [1; 2]%positive [def_a]))))
                3%positive) as Hlaw.
  cbv zeta in Hlaw. destruct Hlaw as (Hanswer & Hsame & _).
  assert (Hd : 3%positive ∉ pluginFileTypes
                 (setPluginFileTypes None
                    (snd (addPluginFileType 3%positive
                            (mkState None [1; 2]%positive [def_a])))))
    by (apply (bool_decide_unpack _); vm_compute; exact I).
  split; [exact Hd|].
  split; [rewrite Hanswer; evaluate | exact (Hsame Hd)].
Defined.

Lemma guess_by_file_name_witness :
  let this := mkState None [] [def_b; def_a] in
  let fileHandle := mkFileHandle "mob.entity.json" (Throw (JsError "unreadable")) in
  (name fileHandle = "json"
   \/ exists stem, name fileHandle = (stem ++ "." ++ "json")%string)
  /\ no_dot "json" = true
  /\ extension_candidate ".json" def_b = false
  /\ extension_candidate ".json" def_a = true
  /\ first_scope_entry def_a = Some "packs/behavior"
  /\ guessFolder string sample_parse this fileHandle = ret (Some "packs/behavior/").
Proof.
  cbv zeta.
  assert (Hname : name (mkFileHandle "mob.entity.json" (Throw (JsError "unreadable")))
                  = "json"
                  \/ exists stem,
                      name (mkFileHandle "mob.entity.json" (Throw (JsError "unreadable")))
                      = (stem ++ "." ++ "json")%string)
    by (right; exists "mob.entity"; reflexivity).
  split; [exact Hname|]. do 4 (split; [reflexivity|]).
  apply (guess_by_file_name string sample_parse
           (mkState None [] [def_b; def_a])
           (mkFileHandle "mob.entity.json" (Throw (JsError "unreadable")))
           "json" [def_b] def_a [] "packs/behavior" Hname eq_refl eq_refl);
    [repeat constructor | reflexivity | reflexivity].
Defined.

Lemma guess_gives_up_without_reading_witness :
  let this := mkState None [] [def_a; def_loot] in
  let fileHandle := mkFileHandle "notes.txt" (Throw (JsError "unreadable")) in
  endsWith (name fileHandle) ".json" = false
  /\ file_extension (name fileHandle) = ".txt"
  /\ guessFolder string sample_parse this fileHandle = ret None.
Proof.
  cbv zeta. split; [evaluate|]. split; [evaluate|].
  apply (guess_gives_up_without_reading string sample_parse
           (mkState None [] [def_a; def_loot])
           (mkFileHandle "notes.txt" (Throw (JsError "unreadable"))));
    [evaluate | repeat constructor; evaluate].
Defined.

Lemma guess_read_failures_witness :
  let this := mkState None [] [def_b; def_loot] in
  let gone := mkFileHandle "loot_table.json" (Throw (JsError "gone")) in
  let garbled := mkFileHandle "loot_table.json" (Normal (mkFile (Throw (JsError "garbled")))) in
  endsWith "loot_table.json" ".json" = true
  /\ guessFolder string sample_parse this gone = throw (JsError "gone")
  /\ guessFolder string sample_parse this garbled = ret None.
Proof.
  cbv zeta. split; [evaluate|].
  assert (Hall : forall fileHandle, name fileHandle = "loot_table.json" ->
            Forall (fun x => extension_candidate (file_extension (name fileHandle)) x = false)
                   (fileTypes (mkState None [] [def_b; def_loot])))
    by (intros fileHandle ->; repeat constructor; evaluate).
  split.
  - apply (proj1 (guess_read_failures string sample_parse
                    (mkState None [] [def_b; def_loot])
                    (mkFileHandle "loot_table.json" (Throw (JsError "gone")))
                    ltac:(evaluate)
                    (Hall (mkFileHandle "loot_table.json" (Throw (JsError "gone")))
                          eq_refl))).
    reflexivity.
  - apply (proj2 (guess_read_failures string sample_parse
                    (mkState None [] [def_b; def_loot])
                    (mkFileHandle "loot_table.json"
                       (Normal (mkFile (Throw (JsError "garbled")))))
                    ltac:(evaluate)
                    (Hall (mkFileHandle "loot_table.json"
                             (Normal (mkFile (Throw (JsError "garbled")))))
                          eq_refl))
             (mkFile (Throw (JsError "garbled"))) (JsError "garbled"));
      reflexivity.
Defined.

Lemma guess_ends_with_separator_witness :
  let this := mkState None [] [def_a] in
  let fileHandle := sample_handle "player.json" "{}" in
  completion (guessFolder string sample_parse this fileHandle)
  = Normal (Some "packs/behavior/")
  /\ endsWith "packs/behavior/" "/" = true.
Proof.
  cbv zeta.
  assert (Hguess : completion (guessFolder string sample_parse
                      (mkState None [] [def_a]) (sample_handle "player.json" "{}"))
                   = Normal (Some "packs/behavior/")) by evaluate.
  split; [exact Hguess|].
  exact (guess_ends_with_separator string sample_parse (mkState None [] [def_a])
           (sample_handle "player.json" "{}") "packs/behavior/" Hguess).
Defined.

Lemma guess_never_raises_witness :
  let this := mkState None [] [def_bad; def_a; def_loot] in
  let fileHandle := sample_handle "notes.json" "not an object" in
  Forall (fun x => well_scoped x = true) (fileTypes this)
  /\ getFile fileHandle = Normal (mkFile (Normal "not an object"))
  /\ exists r, guessFolder string sample_parse this fileHandle = ret r.
Proof.
  cbv zeta.
  assert (Hall : Forall (fun x => well_scoped x = true)
                   (fileTypes (mkState None [] [def_bad; def_a; def_loot])))
    by (repeat constructor).
  split; [exact Hall|]. split; [reflexivity|].
  exact (guess_never_raises string sample_parse
           (mkState None [] [def_bad; def_a; def_loot])
           (sample_handle "notes.json" "not an object")
           (mkFile (Normal "not an object")) Hall eq_refl).
Defined.

Lemma guess_empty_scope_raises_witness :
  let this := mkState None [] [def_b; def_hollow_json; def_a] in
  let fileHandle := sample_handle "player.json" "{}" in
  fileTypes this = [def_b] ++ def_hollow_json :: [def_a]
  /\ detect def_hollow_json ≫= scope = Some (Many [])
  /\ extension_candidate (file_extension (name fileHandle)) def_hollow_json = true
  /\ guessFolder string sample_parse this fileHandle = throw JsTypeError.
Proof.
  cbv zeta. do 2 (split; [reflexivity|]). split; [evaluate|].
  apply (guess_empty_scope_raises string sample_parse
           (mkState None [] [def_b; def_hollow_json; def_a])
           (sample_handle "player.json" "{}")
           [def_b] def_hollow_json [def_a] eq_refl);
    [repeat constructor; evaluate | evaluate | reflexivity].
Defined.
